(** * Node power-control plugins: a shallow embedding and its properties

    The development embeds the two step functions of the repository,
    [ipmi_action] (python/baremetal-node-control/bm_control_plugin.py) and
    [aws_action] (python/aws-node-control/aws_control_plugin.py), together
    with the helpers they call.

    Both functions talk to an external service.  The service is modelled as
    an oracle: a record of scripted replies, one per call, so that a theorem
    quantified over the record speaks of every behaviour of the service.  The
    program state is the wall clock and the log of the calls issued so far.
    Python exceptions are values of [exn]; a call either returns, raises, or
    (for the one [while] loop of the code) runs out of the iteration budget
    of the model, which is proved never to happen. *)

From Stdlib Require Import ZArith NArith Bool List String Ascii Lia.
Import ListNotations.
Open Scope string_scope.
Open Scope Z_scope.

(** ** Python values, exceptions and results *)

(** The exception classes that matter to the two plugins. *)
Inductive exn : Type :=
| TypeError (msg : string)
| ValueError (msg : string)
| KeyError (key : string)
| UnboundLocalError (var : string)
| IpmiConnectionError (msg : string)   (* pyipmi.errors.IpmiConnectionError *)
| WaiterError (msg : string)           (* botocore.exceptions.WaiterError *)
| LibraryError (cls msg : string).     (* any other class raised by a library *)

(** Result of running a piece of code: a value, a raised exception, or the
    exhaustion of the iteration budget given to a loop. *)
Inductive res (A : Type) : Type :=
| Ok (a : A)
| Raise (e : exn)
| Diverge.
Arguments Ok {A} a.
Arguments Raise {A} e.
Arguments Diverge {A}.

(** [SuccessOutput] and [ErrorOutput], the same dataclasses in both plugins. *)
Record SuccessOutput : Type := mkSuccessOutput {
  ms_duration : Z;
  final_power_state_on : bool
}.

Record ErrorOutput : Type := mkErrorOutput {
  error : string
}.

Inductive output : Type :=
| OutSuccess (o : SuccessOutput)
| OutError (o : ErrorOutput).

(** A step function returns the pair of an output identifier and an output
    structure. *)
Definition step_result : Type := (string * output)%type.

Definition is_success (r : res step_result) : bool :=
  match r with
  | Ok (tag, OutSuccess _) => (tag =? "success")%string
  | _ => false
  end.

Definition is_error_output (r : res step_result) : bool :=
  match r with
  | Ok (tag, OutError _) => (tag =? "error")%string
  | _ => false
  end.

(** The caller receives a typed outcome: the call returned, with the success
    tag and a [SuccessOutput] or the error tag and an [ErrorOutput]. *)
Definition is_typed_outcome (r : res step_result) : bool :=
  is_success r || is_error_output r.

(** ** Python string primitives used by the code *)

Module PyStr.

(** [s.find(sub)]: lowest index at which [sub] occurs in [s], or -1. *)
Fixpoint find_from (i : Z) (sub s : string) : Z :=
  if String.prefix sub s then i
  else match s with
       | EmptyString => -1
       | String _ s' => find_from (i + 1) sub s'
       end.

Definition find (s sub : string) : Z := find_from 0 sub s.

Fixpoint drop (n : nat) (s : string) : string :=
  match n, s with
  | O, _ => s
  | S _, EmptyString => EmptyString
  | S k, String _ s' => drop k s'
  end.

Fixpoint take (n : nat) (s : string) : string :=
  match n, s with
  | O, _ => EmptyString
  | S _, EmptyString => EmptyString
  | S k, String c s' => String c (take k s')
  end.

(** [s[i:]] and [s[0:j]] for the non-negative indices the code uses. *)
Definition slice_from (i : Z) (s : string) : string := drop (Z.to_nat i) s.
Definition slice_to (j : Z) (s : string) : string := take (Z.to_nat j) s.

(** [int(s)] on a string: surrounding ASCII white space is dropped, then an
    optional sign and decimal digits, with single underscores allowed between
    digits.  [None] stands for the [ValueError] that [int] raises. *)
Definition is_space (c : ascii) : bool :=
  let n := nat_of_ascii c in
  (Nat.eqb n 32 || (Nat.leb 9 n && Nat.leb n 13))%bool.

Definition digit_of (c : ascii) : option Z :=
  let n := nat_of_ascii c in
  if (Nat.leb 48 n && Nat.leb n 57)%bool then Some (Z.of_nat (n - 48)) else None.

Fixpoint lstrip (s : string) : string :=
  match s with
  | EmptyString => EmptyString
  | String c s' => if is_space c then lstrip s' else s
  end.

Fixpoint rstrip (s : string) : string :=
  match s with
  | EmptyString => EmptyString
  | String c s' =>
      match rstrip s' with
      | EmptyString => if is_space c then EmptyString else String c EmptyString
      | r => String c r
      end
  end.

Inductive lex_state : Type := AtStart | AfterDigit | AfterUnderscore.

Fixpoint digits (st : lex_state) (acc : Z) (s : string) : option Z :=
  match s with
  | EmptyString =>
      match st with AfterDigit => Some acc | _ => None end
  | String c s' =>
      match digit_of c with
      | Some d => digits AfterDigit (10 * acc + d) s'
      | None =>
          if Ascii.eqb c "_"%char then
            match st with
            | AfterDigit => digits AfterUnderscore acc s'
            | _ => None
            end
          else None
      end
  end.

Definition int (s : string) : option Z :=
  match rstrip (lstrip s) with
  | String c s' =>
      if Ascii.eqb c "-"%char then option_map Z.opp (digits AtStart 0 s')
      else if Ascii.eqb c "+"%char then digits AtStart 0 s'
      else digits AtStart 0 (String c s')
  | EmptyString => None
  end.

(** [repr(s)] as it appears in the message of [int]'s [ValueError], for the
    strings without quotes or escapes. *)
Definition repr (s : string) : string := "'" ++ s ++ "'".

(** [s] is [a ++ sep ++ b] and no occurrence of [sep] in [s] starts before
    this one: [a] is what precedes the first occurrence and [b] what follows
    it. *)
Definition first_split (sep s a b : string) : Prop :=
  s = a ++ sep ++ b /\
  forall a' b', s = a' ++ sep ++ b' -> (String.length a <= String.length a')%nat.

(** [sep] does not occur in [s]. *)
Definition absent (sep s : string) : Prop :=
  forall a b, s <> a ++ sep ++ b.

(** No character of [s] is [c]. *)
Fixpoint lacks (c : ascii) (s : string) : bool :=
  match s with
  | EmptyString => true
  | String c' s' => negb (Ascii.eqb c' c) && lacks c s'
  end.

End PyStr.

(** ** The state-and-exception monad of the embedding *)

(** The program state: the wall clock, in milliseconds, and the calls issued
    to the outside so far, oldest first, each with the time of its issue.
    [time.time()] is a float in seconds in the source; the model keeps
    integer milliseconds and stands [t1 - t0] for [int(1000 * (t1 - t0))],
    which the floating point result can miss by one. *)
Record World (C : Type) : Type := mkWorld {
  now : Z;
  log : list (Z * C)
}.
Arguments mkWorld {C} now log.
Arguments now {C} w.
Arguments log {C} w.

Definition M (C A : Type) : Type := World C -> res A * World C.

Definition ret {C A} (a : A) : M C A := fun w => (Ok a, w).

Definition bind {C A B} (m : M C A) (k : A -> M C B) : M C B :=
  fun w =>
    match m w with
    | (Ok a, w') => k a w'
    | (Raise e, w') => (Raise e, w')
    | (Diverge, w') => (Diverge, w')
    end.

Definition raise {C A} (e : exn) : M C A := fun w => (Raise e, w).

Definition diverge {C A} : M C A := fun w => (Diverge, w).

(** [try: body except <classes>: handler]; [handler e] is [None] for the
    classes that the [except] clause does not name. *)
Definition try_except {C A} (body : M C A) (handler : exn -> option (M C A))
  : M C A :=
  fun w =>
    match body w with
    | (Raise e, w') =>
        match handler e with
        | Some h => h w'
        | None => (Raise e, w')
        end
    | r => r
    end.

(** [time.time()], in milliseconds. *)
Definition time {C} : M C Z := fun w => (Ok (now w), w).

(** A call to the outside: logged at the time of issue, and the clock moves
    on by what the call costs. *)
Definition issue {C} (c : C) (cost : Z) : M C unit :=
  fun w => (Ok tt, mkWorld (now w + cost) (log w ++ [(now w, c)])).

(** Reading a local variable that may not have been assigned. *)
Definition local {C A} (var : string) (v : option A) : M C A :=
  match v with
  | Some a => ret a
  | None => raise (UnboundLocalError var)
  end.

(** The computation comes to an end from every state: it returns or raises,
    and no loop in it exhausts its budget. *)
Definition ends {C A} (m : M C A) : Prop := forall w, fst (m w) <> Diverge.

Declare Scope monad_scope.
Notation "x <- m ;; k" := (bind m (fun x => k))
  (at level 61, m at next level, right associativity) : monad_scope.
Notation "m ;; k" := (bind m (fun _ => k))
  (at level 61, right associativity) : monad_scope.
Open Scope monad_scope.

Definition count_calls {C} (p : C -> bool) (l : list (Z * C)) : nat :=
  List.length (List.filter (fun tc => p (snd tc)) l).

(** The calls of a log that pass a test, in the order of their issue. *)
Definition calls_where {C} (p : C -> bool) (l : list (Z * C)) : list C :=
  List.filter p (List.map snd l).

(** ** The IPMI plugin: bm_control_plugin.py *)

Module Bm.

Inductive NodeAction : Type :=
| STOP | START | REBOOT | HARD_RESET | DIAGNOSTIC_INTERRUPT | SOFT_STOP.

Definition value (a : NodeAction) : string :=
  match a with
  | STOP => "stop"
  | START => "start"
  | REBOOT => "reboot"
  | HARD_RESET => "hard_reset"
  | DIAGNOSTIC_INTERRUPT => "diagnostic_interrupt"
  | SOFT_STOP => "soft_stop"
  end.

(** [nodeActionEnumToInt], a dict keyed by the members' values. *)
Definition nodeActionEnumToInt : list (string * Z) :=
  [ (value STOP, 0); (value START, 1); (value REBOOT, 2);
    (value HARD_RESET, 3); (value DIAGNOSTIC_INTERRUPT, 4);
    (value SOFT_STOP, 5) ].

Fixpoint dict_get (d : list (string * Z)) (k : string) : option Z :=
  match d with
  | [] => None
  | (k', v) :: d' => if (k' =? k)%string then Some v else dict_get d' k
  end.

(** The operands of the [==] tests of [ipmi_action]: a [str] or a member of
    [NodeAction]. *)
Inductive pyval : Type :=
| VStr (s : string)
| VAction (a : NodeAction).

(** [x == y].  Two strings compare by content.  A string and a member of the
    enum are never equal: [str.__eq__] and the [__eq__] of the class both
    answer [NotImplemented] and Python falls back on identity.  [NodeAction]
    is decorated with [@dataclass], which installs an [__eq__] comparing the
    (empty) tuples of fields of two objects of the class. *)
Definition py_eq (x y : pyval) : bool :=
  match x, y with
  | VStr a, VStr b => (a =? b)%string
  | VAction _, VAction _ => true
  | _, _ => false
  end.

Record NodeActionParams : Type := mkParams {
  action : NodeAction;
  addr : string;
  user : option string;       (* [None] is Python's None *)
  password : option string;
  wait : bool;
  wait_timeout : Z
}.

(** The calls the plugin issues to pyipmi and to the clock. *)
Inductive call : Type :=
| Establish (host : string) (port : Z) (user passwd : string)
| GetChassisStatus
| ChassisControl (n : Z)
| Sleep (ms : Z).

Definition is_establish (c : call) : bool :=
  match c with Establish _ _ _ _ => true | _ => false end.
Definition is_status (c : call) : bool :=
  match c with GetChassisStatus => true | _ => false end.
Definition is_control (c : call) : bool :=
  match c with ChassisControl _ => true | _ => false end.
Definition is_sleep (c : call) : bool :=
  match c with Sleep _ => true | _ => false end.

(** The BMC and the network, as an oracle.  [status_reply n] answers the
    query that follows [n] earlier ones; [call_ms n] is the time taken by the
    call that follows [n] earlier ones (for a sleep: the time slept beyond
    what was asked). *)
Record Bmc : Type := mkBmc {
  establish_reply : option exn;
  status_reply : nat -> exn + bool;
  control_reply : Z -> option exn;
  call_ms : nat -> N
}.

Record connection : Type := mkConnection {
  conn_host : string;
  conn_port : Z;
  conn_user : string;
  conn_passwd : string
}.

Definition cost (b : Bmc) (w : World call) : Z :=
  Z.of_N (call_ms b (List.length (log w))).

(** [connection.session.establish()], after the interface and the session
    parameters are set. *)
Definition establish (b : Bmc) (c : connection) : M call unit :=
  fun w =>
    let (_, w') := issue (Establish (conn_host c) (conn_port c)
                                    (conn_user c) (conn_passwd c))
                         (cost b w) w in
    match establish_reply b with
    | Some e => (Raise e, w')
    | None => (Ok tt, w')
    end.

(** [connection.get_chassis_status().power_on] *)
Definition get_chassis_status (b : Bmc) (c : connection) : M call bool :=
  fun w =>
    let (_, w') := issue GetChassisStatus (cost b w) w in
    match status_reply b (count_calls is_status (log w)) with
    | inl e => (Raise e, w')
    | inr on => (Ok on, w')
    end.

(** [connection.chassis_control(n)] *)
Definition chassis_control (b : Bmc) (c : connection) (n : Z) : M call unit :=
  fun w =>
    let (_, w') := issue (ChassisControl n) (cost b w) w in
    match control_reply b n with
    | Some e => (Raise e, w')
    | None => (Ok tt, w')
    end.

(** [time.sleep(ms / 1000)]: at least the time asked for. *)
Definition sleep (b : Bmc) (ms : Z) : M call unit :=
  fun w => issue (Sleep ms) (ms + cost b w) w.

(** Lines 84-94 of [get_ipmi_connection]: host and port of the address. *)
Definition parse_bmc_addr (bmc_addr : string) : exn + (string * Z) :=
  let type_position := PyStr.find bmc_addr "://" in
  let host :=
    if type_position =? -1 then bmc_addr
    else PyStr.slice_from (type_position + 3) bmc_addr in
  let port_position := PyStr.find host ":" in
  if port_position =? -1 then inr (host, 623)
  else
    let literal := PyStr.slice_from (port_position + 1) host in
    match PyStr.int literal with
    | Some port => inr (PyStr.slice_to port_position host, port)
    | None =>
        inl (ValueError ("invalid literal for int() with base 10: "
                           ++ PyStr.repr literal))
    end.

Definition missing_credentials : string :=
  "Missing IPMI BMI user and/or password for baremetal cloud. "
  ++ "Please specify either a global or per-machine user and pass".

(** [get_ipmi_connection]: the pair [(False, message)] is [inl message] and
    [(True, connection)] is [inr connection]. *)
Definition get_ipmi_connection (b : Bmc) (bmc_addr : string)
    (user passwd : option string) : M call (string + connection) :=
  match parse_bmc_addr bmc_addr with
  | inl e => raise e
  | inr (host, port) =>
      match user, passwd with
      | Some u, Some p =>
          let connection := mkConnection host port u p in
          establish b connection ;;
          ret (inr connection)
      | _, _ => ret (inl missing_credentials)
      end
  end.

(** The number of evaluations of the loop condition that the model grants
    to [wait_for_power_state]; [wait_for_power_state_total] shows that the
    loop never needs more. *)
Definition poll_budget (timeout : Z) : nat := S (Z.to_nat (2 * timeout)).

(** The [while] loop of [wait_for_power_state]. *)
Fixpoint poll (fuel : nat) (b : Bmc) (c : connection) (desired_power_state_on : bool)
    (timeout_time : Z) : M call unit :=
  match fuel with
  | O => diverge
  | S fuel' =>
      power_on <- get_chassis_status b c ;;
      if negb (Bool.eqb power_on desired_power_state_on) then
        t <- time ;;
        if t <? timeout_time then
          sleep b 500 ;;
          poll fuel' b c desired_power_state_on timeout_time
        else ret tt
      else ret tt
  end.

Definition wait_for_power_state (b : Bmc) (c : connection)
    (desired_power_state_on : bool) (timeout : Z) : M call unit :=
  t <- time ;;
  let timeout_time := t + 1000 * timeout in
  poll (poll_budget timeout) b c desired_power_state_on timeout_time.

(** A call of [wait_for_power_state] with or without its third positional
    argument: the function has no default for [timeout]. *)
Definition call_wait_for_power_state (b : Bmc) (c : connection)
    (desired_power_state_on : bool) (timeout : option Z) : M call unit :=
  match timeout with
  | Some t => wait_for_power_state b c desired_power_state_on t
  | None =>
      raise (TypeError
        "wait_for_power_state() missing 1 required positional argument: 'timeout'")
  end.

Definition error_result (msg : string) : step_result :=
  ("error", OutError (mkErrorOutput msg)).

Definition success_result (ms : Z) (on : bool) : step_result :=
  ("success", OutSuccess (mkSuccessOutput ms on)).

Definition is_restart (a : NodeAction) : bool :=
  py_eq (VStr (value a)) (VStr (value REBOOT))
  || py_eq (VAction a) (VStr (value HARD_RESET)).

Definition is_diagnostic_interrupt (a : NodeAction) : bool :=
  py_eq (VStr (value a)) (VAction DIAGNOSTIC_INTERRUPT).

(** [intended_final_power_state], line 161. *)
Definition intended_final_power_state (a : NodeAction) : bool :=
  is_restart a || py_eq (VStr (value a)) (VStr (value START)).

(** The [try] block of [ipmi_action], lines 138-151.  [inl r]: the function
    returns [r] from inside the block; [inr (conn, original)]: control
    reaches line 153 with these locals. *)
Definition dispatch (b : Bmc) (params : NodeActionParams)
  : M call (step_result + connection * option bool) :=
  try_except
    (sc <- get_ipmi_connection b (addr params) (user params) (password params) ;;
     match sc with
     | inl msg => ret (inl (error_result msg))
     | inr conn =>
         original_power_state_on <-
           (if is_restart (action params)
            then on <- get_chassis_status b conn ;; ret (Some on)
            else ret None) ;;
         n <- match dict_get nodeActionEnumToInt (value (action params)) with
              | Some n => ret n
              | None => raise (KeyError (value (action params)))
              end ;;
         chassis_control b conn n ;;
         ret (inr (conn, original_power_state_on))
     end)
    (fun e =>
       match e with
       | IpmiConnectionError msg =>
           Some (ret (inl (error_result ("Failed to connect: " ++ msg))))
       | _ => None
       end).

(** Lines 153-162: the waits.  The result is the binding of
    [intended_final_power_state], if the assignment was reached. *)
Definition reconcile (b : Bmc) (params : NodeActionParams) (conn : connection)
    (original_power_state_on : option bool) : M call (option bool) :=
  if wait params then
    phase1 <- (if is_restart (action params)
               then local "original_power_state_on" original_power_state_on
               else ret false) ;;
    (if phase1 then call_wait_for_power_state b conn false None else ret tt) ;;
    if negb (is_diagnostic_interrupt (action params)) then
      let intended := intended_final_power_state (action params) in
      call_wait_for_power_state b conn intended (Some (wait_timeout params)) ;;
      ret (Some intended)
    else ret None
  else ret None.

Definition ipmi_action (b : Bmc) (params : NodeActionParams) : M call step_result :=
  start_time <- time ;;
  d <- dispatch b params ;;
  match d with
  | inl r => ret r
  | inr (conn, original_power_state_on) =>
      intended <- reconcile b params conn original_power_state_on ;;
      final_power_state_on <- get_chassis_status b conn ;;
      reached <-
        (if is_diagnostic_interrupt (action params) || negb (wait params)
         then ret true
         else i <- local "intended_final_power_state" intended ;;
              ret (Bool.eqb final_power_state_on i)) ;;
      if reached then
        t <- time ;;
        ret (success_result (t - start_time) final_power_state_on)
      else
        ret (error_result "Did not reach desired final state within timeout period")
  end.

(** A run from a fresh state: clock at [t0], nothing issued yet. *)
Definition run (b : Bmc) (params : NodeActionParams) (t0 : Z)
  : res step_result * World call :=
  ipmi_action b params (mkWorld t0 []).

(** *** Vocabulary of the statements about the plugin *)

Definition raised {A} (r : exn + A) : bool :=
  match r with inl _ => true | inr _ => false end.

(** The calls of a wait that sleeps [n] times: a query, then [n] times a
    sleep of half a second and a query. *)
Fixpoint poll_calls (n : nat) : list call :=
  match n with
  | O => [GetChassisStatus]
  | S k => GetChassisStatus :: Sleep 500 :: poll_calls k
  end.

(** A status query issued after [deadline]. *)
Definition late_query (deadline : Z) (tc : Z * call) : bool :=
  is_status (snd tc) && (deadline <? fst tc).

Definition late_queries (deadline : Z) (l : list (Z * call)) : nat :=
  List.length (List.filter (late_query deadline) l).

(** What a wait did between the states [w] and [w']: it issued [added],
    [n] sleeps long; the queries before the last one all saw the state that
    was not desired; at most one query was issued after the deadline; the
    result is decided by the last query and the clock. *)
Record poll_run (b : Bmc) (desired : bool) (deadline : Z) (w : World call)
    (r : res unit) (w' : World call) (n : nat) (added : list (Z * call)) : Prop := {
  pr_log : log w' = (log w ++ added)%list;
  pr_calls : map snd added = poll_calls n;
  pr_mismatch : forall i, (i < n)%nat ->
      status_reply b (count_calls is_status (log w) + i) = inr (negb desired);
  pr_late : (late_queries deadline added <= 1)%nat;
  pr_clock : now w <= now w';
  pr_result :
    match status_reply b (count_calls is_status (log w) + n) with
    | inl e => r = Raise e
    | inr on => r = Ok tt /\ (on = desired \/ deadline <= now w')
    end
}.

(** The index of the query of line 163 when nothing waits: it follows the
    query of line 146 for a restart and is the first one otherwise. *)
Definition final_query_index (a : NodeAction) : nat :=
  if is_restart a then 1%nat else 0%nat.

(** The backend accepted the dispatched command: the address and the
    credentials are usable and none of the calls up to and including the
    command raises (the session, the query before a restart, the command). *)
Definition dispatched (b : Bmc) (p : NodeActionParams) : bool :=
  match parse_bmc_addr (addr p), user p, password p with
  | inr _, Some _, Some _ =>
      match establish_reply b with None => true | Some _ => false end
      && (if is_restart (action p) then negb (raised (status_reply b 0)) else true)
      && match dict_get nodeActionEnumToInt (value (action p)) with
         | Some n => match control_reply b n with None => true | Some _ => false end
         | None => false
         end
  | _, _, _ => false
  end.

(** The state query of line 163, the one that follows the command, returns
    a power state. *)
Definition final_query_returns (b : Bmc) (a : NodeAction) : bool :=
  negb (raised (status_reply b (final_query_index a))).

(** Two BMCs that fail alike and differ at most in the power states they
    report. *)
Definition same_faults (b b' : Bmc) : Prop :=
  establish_reply b = establish_reply b' /\
  (forall n, control_reply b n = control_reply b' n) /\
  (forall n, raised (status_reply b n) = raised (status_reply b' n)).

(** The step that [@plugin.step] (lines 120-125) makes of [ipmi_action]: the
    SDK checks the request against the declared types of [NodeActionParams]
    before the body runs, and raises [ConstraintException] when a field does
    not have its type.  [user] and [password] are declared [str], which None
    is not; the other fields have their declared types by construction here.
    The text of the exception is not modelled: the message names the field. *)
Definition validate_input (p : NodeActionParams) : option exn :=
  match user p, password p with
  | None, _ => Some (LibraryError "ConstraintException" "user")
  | Some _, None => Some (LibraryError "ConstraintException" "password")
  | Some _, Some _ => None
  end.

Definition ipmi_action_step (b : Bmc) (params : NodeActionParams)
  : M call step_result :=
  match validate_input params with
  | Some e => raise e
  | None => ipmi_action b params
  end.

(** A call of the step from a fresh state. *)
Definition run_step (b : Bmc) (params : NodeActionParams) (t0 : Z)
  : res step_result * World call :=
  ipmi_action_step b params (mkWorld t0 []).

Definition missing_timeout : exn :=
  TypeError "wait_for_power_state() missing 1 required positional argument: 'timeout'".

(** *** Concrete BMCs and requests *)

(** A BMC that answers at once and whose chassis is on at the queries before
    the [n]-th and off from then on. *)
Definition on_until (n : nat) : Bmc :=
  mkBmc None (fun i => inr (Nat.ltb i n)) (fun _ => None) (fun _ => 0%N).

(** A chassis that stays on, every call taking [ms] milliseconds. *)
Definition stays_on (ms : N) : Bmc :=
  mkBmc None (fun _ => inr true) (fun _ => None) (fun _ => ms).

(** A chassis that is off. *)
Definition stays_off : Bmc :=
  mkBmc None (fun _ => inr false) (fun _ => None) (fun _ => 0%N).

Definition ask (a : NodeAction) (wait : bool) (timeout : Z) : NodeActionParams :=
  mkParams a "127.0.0.1:623" (Some "user") (Some "password") wait timeout.

Definition bmc_conn : connection := mkConnection "127.0.0.1" 623 "user" "password".

End Bm.

(** ** The AWS plugin: aws_control_plugin.py *)

Module Aws.

Inductive NodeAction : Type :=
| STOP | FORCE_STOP | START | REBOOT | TERMINATE.

Definition value (a : NodeAction) : string :=
  match a with
  | STOP => "stop"
  | FORCE_STOP => "force_stop"
  | START => "start"
  | REBOOT => "reboot"
  | TERMINATE => "terminate"
  end.

Record NodeActionParams : Type := mkParams {
  action : NodeAction;
  instance_id : string;
  aws_access_key_id : string;
  aws_access_private_key : string;
  aws_region : string;
  wait : bool;
  wait_timeout : Z
}.

(** The calls the plugin issues to boto3.  [Load] is the request behind the
    first read of an attribute of the instance resource and behind
    [reload()].  The waiters carry the positional argument they are given. *)
Inductive call : Type :=
| Session (key_id access_key region instance : string)
| Load
| StartInstances (instance : string)
| StopInstances (instance : string) (force : bool)
| RebootInstances (instance : string)
| TerminateInstances (instance : string)
| WaitUntilRunning (arg : Z)
| WaitUntilStopped (arg : Z)
| WaitUntilTerminated.

Definition is_load (c : call) : bool :=
  match c with Load => true | _ => false end.

Definition is_command (c : call) : bool :=
  match c with
  | StartInstances _ | StopInstances _ _ | RebootInstances _
  | TerminateInstances _ => true
  | _ => false
  end.

Definition is_timed_wait (c : call) : bool :=
  match c with WaitUntilRunning _ | WaitUntilStopped _ => true | _ => false end.

Definition is_terminal_wait (c : call) : bool :=
  match c with WaitUntilTerminated => true | _ => false end.

(** EC2 as an oracle.  [load_reply n] answers the load that follows [n]
    earlier ones with the name of the instance state. *)
Record Ec2 : Type := mkEc2 {
  session_reply : option exn;
  load_reply : nat -> exn + string;
  command_reply : option exn;
  wait_reply : option exn;
  call_ms : nat -> N
}.

(** The instance resource: its attributes are loaded on first use and kept
    until [reload()]. *)
Record Instance : Type := mkInstance {
  meta_data : option string
}.

Definition cost (b : Ec2) (w : World call) : Z :=
  Z.of_N (call_ms b (List.length (log w))).

Definition request (b : Ec2) (c : call) (reply : option exn) : M call unit :=
  fun w =>
    let (_, w') := issue c (cost b w) w in
    match reply with
    | Some e => (Raise e, w')
    | None => (Ok tt, w')
    end.

Definition get_boto3_ec2_client (b : Ec2) (instance_id key_id access_key region : string)
  : M call Instance :=
  request b (Session key_id access_key region instance_id) (session_reply b) ;;
  ret (mkInstance None).

(** [resource.load()]: the state name that the service reports. *)
Definition load (b : Ec2) : M call string :=
  fun w =>
    let (_, w') := issue Load (cost b w) w in
    match load_reply b (count_calls is_load (log w)) with
    | inl e => (Raise e, w')
    | inr name => (Ok name, w')
    end.

(** [resource.state['Name']]: the name, and the resource after the read. *)
Definition state_name (b : Ec2) (resource : Instance) : M call (string * Instance) :=
  match meta_data resource with
  | Some name => ret (name, resource)
  | None => name <- load b ;; ret (name, mkInstance (Some name))
  end.

(** [resource.reload()] *)
Definition reload (b : Ec2) (resource : Instance) : M call Instance :=
  name <- load b ;; ret (mkInstance (Some name)).

(** [wait_for_power_state(resource, desired_power_state_on, timeout=600)] *)
Definition wait_for_power_state (b : Ec2) (desired_power_state_on : bool)
    (timeout : option Z) : M call unit :=
  let timeout := match timeout with Some t => t | None => 600 end in
  if desired_power_state_on
  then request b (WaitUntilRunning timeout) (wait_reply b)
  else request b (WaitUntilStopped timeout) (wait_reply b).

Definition error_result (msg : string) : step_result :=
  ("error", OutError (mkErrorOutput msg)).

Definition success_result (ms : Z) (on : bool) : step_result :=
  ("success", OutSuccess (mkSuccessOutput ms on)).

Definition is_action (a b : NodeAction) : bool := (value a =? value b)%string.

(** [intended_final_power_state], lines 128-129. *)
Definition intended_final_power_state (a : NodeAction) : bool :=
  is_action a REBOOT || is_action a START.

(** Lines 111-113: [inl r] when the function returns [r] there. *)
Definition check_reboot (b : Ec2) (params : NodeActionParams) (resource : Instance)
  : M call (step_result + Instance) :=
  if is_action (action params) REBOOT then
    s1 <- state_name b resource ;;
    let (name1, resource) := s1 in
    if (name1 =? "stopped")%string
    then ret (inl (error_result "Node must be running to reboot."))
    else
      s2 <- state_name b resource ;;
      let (name2, resource) := s2 in
      if (name2 =? "terminated")%string
      then ret (inl (error_result "Node must be running to reboot."))
      else ret (inr resource)
  else ret (inr resource).

(** Lines 115-126: [Some r] when the function returns [r] there. *)
Definition dispatch (b : Ec2) (params : NodeActionParams) : M call (option step_result) :=
  let a := action params in
  let id := instance_id params in
  if is_action a START then
    request b (StartInstances id) (command_reply b) ;; ret None
  else if is_action a STOP then
    request b (StopInstances id false) (command_reply b) ;; ret None
  else if is_action a FORCE_STOP then
    request b (StopInstances id true) (command_reply b) ;; ret None
  else if is_action a REBOOT then
    request b (RebootInstances id) (command_reply b) ;; ret None
  else if is_action a TERMINATE then
    request b (TerminateInstances id) (command_reply b) ;; ret None
  else ret (Some (error_result ("Unknown action " ++ value a))).

(** Lines 130-140: [Some r] when the function returns [r] from the handler. *)
Definition reconcile (b : Ec2) (params : NodeActionParams) : M call (option step_result) :=
  if wait params then
    try_except
      ((if negb (is_action (action params) TERMINATE)
        then wait_for_power_state b (intended_final_power_state (action params))
                                  (Some (wait_timeout params))
        else request b WaitUntilTerminated (wait_reply b)) ;;
       ret None)
      (fun e =>
         match e with
         | WaiterError _ =>
             Some (ret (Some (error_result
                     "Failed due to timeout while waiting for final state.")))
         | _ => None
         end)
  else ret None.

Definition aws_action (b : Ec2) (params : NodeActionParams) : M call step_result :=
  start_time <- time ;;
  resource <- get_boto3_ec2_client b (instance_id params) (aws_access_key_id params)
                (aws_access_private_key params) (aws_region params) ;;
  checked <- check_reboot b params resource ;;
  match checked with
  | inl r => ret r
  | inr resource =>
      d <- dispatch b params ;;
      match d with
      | Some r => ret r
      | None =>
          let intended := intended_final_power_state (action params) in
          waited <- reconcile b params ;;
          match waited with
          | Some r => ret r
          | None =>
              resource <- reload b resource ;;
              s <- state_name b resource ;;
              let (name, resource) := s in
              let final_power_state_on := (name =? "running")%string in
              if negb (wait params) || Bool.eqb final_power_state_on intended then
                t <- time ;;
                ret (success_result (t - start_time) final_power_state_on)
              else
                s' <- state_name b resource ;;
                ret (error_result
                  ("Did not reach desired final state within timeout period. Power state is "
                     ++ fst s'))
          end
      end
  end.

Definition run (b : Ec2) (params : NodeActionParams) (t0 : Z)
  : res step_result * World call :=
  aws_action b params (mkWorld t0 []).

(** *** Vocabulary of the statements about the plugin *)

Definition raised {A} (r : exn + A) : bool :=
  match r with inl _ => true | inr _ => false end.

(** The index of the load behind [reload()] when nothing waits: it follows
    the load of line 112 for a reboot and is the first one otherwise. *)
Definition final_load_index (a : NodeAction) : nat :=
  if is_action a REBOOT then 1%nat else 0%nat.

(** The backend accepted the dispatched command: the session is created, a
    reboot finds the instance neither stopped nor terminated, and the command
    does not raise. *)
Definition dispatched (b : Ec2) (p : NodeActionParams) : bool :=
  match session_reply b with
  | Some _ => false
  | None =>
      (if is_action (action p) REBOOT then
         match load_reply b 0 with
         | inr name => negb (name =? "stopped")%string
                       && negb (name =? "terminated")%string
         | inl _ => false
         end
       else true)
      && match command_reply b with None => true | Some _ => false end
  end.

(** The load behind [reload()] at line 142, the one that follows the
    command, returns a state. *)
Definition final_load_returns (b : Ec2) (a : NodeAction) : bool :=
  negb (raised (load_reply b (final_load_index a))).

(** Two services that fail alike and differ at most in the state they report
    once the command is out. *)
Definition same_faults (b b' : Ec2) (p : NodeActionParams) : Prop :=
  session_reply b = session_reply b' /\
  command_reply b = command_reply b' /\
  (is_action (action p) REBOOT = true -> load_reply b 0 = load_reply b' 0) /\
  raised (load_reply b (final_load_index (action p)))
  = raised (load_reply b' (final_load_index (action p))).

(** The request that each action stands for. *)
Definition command_for (a : NodeAction) (id : string) : call :=
  match a with
  | START => StartInstances id
  | STOP => StopInstances id false
  | FORCE_STOP => StopInstances id true
  | REBOOT => RebootInstances id
  | TERMINATE => TerminateInstances id
  end.

Definition is_wait (c : call) : bool := is_timed_wait c || is_terminal_wait c.

(** The check of lines 111-113 lets the request through: the action is not
    a reboot, or the instance is in a state other than "stopped" and
    "terminated". *)
Definition passes_check (b : Ec2) (a : NodeAction) : Prop :=
  is_action a REBOOT = true ->
  exists name, load_reply b 0 = inr name /\
               name <> "stopped" /\ name <> "terminated".

Definition with_timeout (p : NodeActionParams) (t : Z) : NodeActionParams :=
  mkParams (action p) (instance_id p) (aws_access_key_id p)
           (aws_access_private_key p) (aws_region p) (wait p) t.

(** *** Concrete services and requests *)

(** An instance that is in state [name] at every load, every call taking
    5 milliseconds. *)
Definition in_state (name : string) : Ec2 :=
  mkEc2 None (fun _ => inr name) None None (fun _ => 5%N).

Definition ask (a : NodeAction) (wait : bool) (timeout : Z) : NodeActionParams :=
  mkParams a "i-0123" "key" "secret" "us-east-2" wait timeout.

End Aws.

(** * Properties *)

(** ** Sanity checks of the string primitives *)

Example find_scheme : PyStr.find "ipmi://10.0.0.1:6230" "://" = 4.
Proof. reflexivity. Qed.

Example find_first_of_two : PyStr.find "a:://b://c" "://" = 2.
Proof. reflexivity. Qed.

Example find_absent : PyStr.find "127.0.0.1" "://" = -1.
Proof. reflexivity. Qed.

Example int_port : PyStr.int "12345" = Some 12345.
Proof. reflexivity. Qed.

Example int_padded : PyStr.int " 6_23 " = Some 623.
Proof. reflexivity. Qed.

Example int_empty : PyStr.int "" = None.
Proof. reflexivity. Qed.

Example int_double_underscore : PyStr.int "1__0" = None.
Proof. reflexivity. Qed.

Example int_sign_gap : PyStr.int "+ 5" = None.
Proof. reflexivity. Qed.

(** ** The poll loop of the IPMI plugin *)

Lemma count_calls_app {C} (p : C -> bool) (l1 l2 : list (Z * C)) :
  count_calls p (l1 ++ l2) = (count_calls p l1 + count_calls p l2)%nat.
Proof. unfold count_calls. now rewrite filter_app, length_app. Qed.

Lemma bm_cost_nonneg (b : Bm.Bmc) (w : World Bm.call) : 0 <= Bm.cost b w.
Proof. unfold Bm.cost. lia. Qed.

(** One evaluation of the loop condition, and of the body if it holds. *)
Lemma poll_step (fuel : nat) (b : Bm.Bmc) (c : Bm.connection) (desired : bool)
    (deadline : Z) (w : World Bm.call) :
  Bm.poll (S fuel) b c desired deadline w =
  let w1 := mkWorld (now w + Bm.cost b w)
                    (log w ++ [(now w, Bm.GetChassisStatus)]) in
  match Bm.status_reply b (count_calls Bm.is_status (log w)) with
  | inl e => (Raise e, w1)
  | inr on =>
      if negb (Bool.eqb on desired) && (now w1 <? deadline)
      then Bm.poll fuel b c desired deadline
             (mkWorld (now w1 + (500 + Bm.cost b w1))
                      (log w1 ++ [(now w1, Bm.Sleep 500)]))
      else (Ok tt, w1)
  end.
Proof.
  cbn [Bm.poll].
  unfold bind, Bm.get_chassis_status, Bm.sleep, time, issue, ret. cbn.
  destruct (Bm.status_reply b (count_calls Bm.is_status (log w))) as [e|on];
    [reflexivity|].
  destruct (negb (Bool.eqb on desired)); cbn; [|reflexivity].
  destruct (now w + Bm.cost b w <? deadline); reflexivity.
Qed.

(** A loop that stops at its first query. *)
Lemma single_query (b : Bm.Bmc) (desired : bool) (deadline : Z)
    (w : World Bm.call) (r : res unit) :
  match Bm.status_reply b (count_calls Bm.is_status (log w)) with
  | inl e => r = Raise e
  | inr on => r = Ok tt /\ (on = desired \/ deadline <= now w + Bm.cost b w)
  end ->
  Bm.poll_run b desired deadline w r
    (mkWorld (now w + Bm.cost b w) (log w ++ [(now w, Bm.GetChassisStatus)]))
    0 [(now w, Bm.GetChassisStatus)].
Proof.
  intros Hr. pose proof (bm_cost_nonneg b w).
  constructor; cbn [now log map snd Bm.poll_calls]; try reflexivity; try lia.
  - unfold Bm.late_queries. cbn. destruct (deadline <? now w); cbn; lia.
  - now rewrite Nat.add_0_r.
Qed.

(** With [S fuel] evaluations of the condition granted and the deadline at
    most [fuel] half seconds away, the loop comes to an end within the budget
    and its run is a [poll_run]. *)
Lemma poll_spec (b : Bm.Bmc) (c : Bm.connection) (desired : bool) (deadline : Z) :
  forall (fuel : nat) (w : World Bm.call),
    deadline - now w <= 500 * Z.of_nat fuel ->
    exists n added,
      (n <= fuel)%nat /\
      Bm.poll_run b desired deadline w
        (fst (Bm.poll (S fuel) b c desired deadline w))
        (snd (Bm.poll (S fuel) b c desired deadline w)) n added.
Proof.
  induction fuel as [|fuel IH]; intros w Hbudget;
    pose proof (bm_cost_nonneg b w) as Hc; rewrite poll_step; cbv zeta;
    destruct (Bm.status_reply b (count_calls Bm.is_status (log w)))
      as [e|on] eqn:Hs.
  1, 3: exists 0%nat, [(now w, Bm.GetChassisStatus)]; split; [lia|];
        cbn [fst snd]; apply single_query; rewrite Hs; reflexivity.
  - (* nothing left of the budget: the clock check cannot pass *)
    assert (Hlt : (now w + Bm.cost b w <? deadline) = false)
      by (apply Z.ltb_ge; lia).
    cbn [now]. rewrite Hlt, andb_false_r.
    exists 0%nat, [(now w, Bm.GetChassisStatus)]; split; [lia|].
    cbn [fst snd]. apply single_query. rewrite Hs.
    split; [reflexivity|]. right; lia.
  - cbn [now log].
    destruct (negb (Bool.eqb on desired)) eqn:Hm; cbn [andb].
    2:{ exists 0%nat, [(now w, Bm.GetChassisStatus)]; split; [lia|].
        cbn [fst snd]. apply single_query. rewrite Hs. split; [reflexivity|].
        left. apply negb_false_iff in Hm. now apply Bool.eqb_prop. }
    destruct (now w + Bm.cost b w <? deadline) eqn:Hlt.
    2:{ exists 0%nat, [(now w, Bm.GetChassisStatus)]; split; [lia|].
        cbn [fst snd]. apply single_query. rewrite Hs. split; [reflexivity|].
        right. now apply Z.ltb_ge in Hlt. }
    apply Z.ltb_lt in Hlt.
    set (w1 := mkWorld (now w + Bm.cost b w)
                       (log w ++ [(now w, Bm.GetChassisStatus)])).
    set (w2 := mkWorld (now w + Bm.cost b w + (500 + Bm.cost b w1))
                       ((log w ++ [(now w, Bm.GetChassisStatus)])
                          ++ [(now w + Bm.cost b w, Bm.Sleep 500)])).
    pose proof (bm_cost_nonneg b w1) as Hc1.
    destruct (IH w2) as (n & added & Hn & Hrun).
    { subst w2; cbn [now]. lia. }
    exists (S n), ((now w, Bm.GetChassisStatus)
                     :: (now w + Bm.cost b w, Bm.Sleep 500) :: added).
    split; [lia|].
    assert (Hk : count_calls Bm.is_status (log w2)
                 = S (count_calls Bm.is_status (log w))).
    { subst w2; cbn [log]. rewrite !count_calls_app. cbn. lia. }
    destruct Hrun as [Hlog Hcalls Hmis Hlate Hclock Hres].
    rewrite Hk in Hmis, Hres.
    constructor.
    + rewrite Hlog. subst w2; cbn [log]. now rewrite <- !app_assoc.
    + cbn. now rewrite Hcalls.
    + intros [|i] Hi.
      * rewrite Nat.add_0_r, Hs. f_equal.
        destruct on, desired; cbn in *; congruence.
      * rewrite Nat.add_succ_r. apply (Hmis i). lia.
    + unfold Bm.late_queries in *.
      cbn [filter Bm.late_query Bm.is_status snd fst andb].
      assert (Hq : (deadline <? now w) = false) by (apply Z.ltb_ge; lia).
      rewrite Hq. exact Hlate.
    + subst w2; cbn [now] in Hclock. lia.
    + rewrite Nat.add_succ_r. exact Hres.
Qed.

(** A loop that came to an end does the same with any larger budget. *)
Lemma poll_more_fuel (b : Bm.Bmc) (c : Bm.connection) (desired : bool)
    (deadline : Z) :
  forall (fuel : nat) (w : World Bm.call),
    fst (Bm.poll fuel b c desired deadline w) <> Diverge ->
    forall extra : nat,
      Bm.poll (fuel + extra) b c desired deadline w
      = Bm.poll fuel b c desired deadline w.
Proof.
  induction fuel as [|fuel IH]; intros w Hnd extra.
  - cbn in Hnd. congruence.
  - cbn [Nat.add]. rewrite !poll_step. rewrite poll_step in Hnd. cbv zeta in *.
    destruct (Bm.status_reply b (count_calls Bm.is_status (log w))) as [e|on];
      [reflexivity|].
    destruct (negb (Bool.eqb on desired) && _); [|reflexivity].
    now apply IH.
Qed.

Lemma poll_run_ends (b : Bm.Bmc) (desired : bool) (deadline : Z)
    (w w' : World Bm.call) (r : res unit) (n : nat) (added : list (Z * Bm.call)) :
  Bm.poll_run b desired deadline w r w' n added -> r <> Diverge.
Proof.
  intros [_ _ _ _ _ Hres].
  destruct (Bm.status_reply b (count_calls Bm.is_status (log w) + n)).
  - subst r. discriminate.
  - destruct Hres as [-> _]. discriminate.
Qed.

(** C8, as amended.  [wait_for_power_state] always comes to an end, within
    the budget of the model and with the same result under any larger budget.
    From its entry it issues a status query, then as many times as needed a
    sleep of 500 ms and a fresh query (the i-th evaluation of the condition
    reads the i-th reply of the BMC, never an earlier one), at most
    [2 * timeout] sleeps.  Every query but the last saw the state that was not
    desired.  It stops at the first query that raises, or sees the desired
    state, or is followed by a clock reading at or after the deadline
    [entry + timeout]; at most one query is issued after the deadline. *)
Theorem wait_for_power_state_run (b : Bm.Bmc) (c : Bm.connection)
    (desired : bool) (timeout : Z) (w : World Bm.call) :
  let r := fst (Bm.wait_for_power_state b c desired timeout w) in
  let w' := snd (Bm.wait_for_power_state b c desired timeout w) in
  let deadline := now w + 1000 * timeout in
  r <> Diverge /\
  (forall extra : nat,
      Bm.poll (Bm.poll_budget timeout + extra) b c desired deadline w = (r, w')) /\
  exists n added,
    Z.of_nat n <= Z.max 0 (2 * timeout) /\
    Bm.poll_run b desired deadline w r w' n added.
Proof.
  cbv zeta.
  assert (Heq : Bm.wait_for_power_state b c desired timeout w
                = Bm.poll (Bm.poll_budget timeout) b c desired
                          (now w + 1000 * timeout) w) by reflexivity.
  rewrite Heq. unfold Bm.poll_budget.
  destruct (poll_spec b c desired (now w + 1000 * timeout)
                      (Z.to_nat (2 * timeout)) w) as (n & added & Hn & Hrun).
  { lia. }
  pose proof (poll_run_ends _ _ _ _ _ _ _ _ Hrun) as Hend.
  split; [exact Hend|]. split.
  - intros extra. rewrite (poll_more_fuel b c desired _ _ w Hend extra).
    now destruct (Bm.poll _ b c desired _ w).
  - exists n, added. split; [lia | exact Hrun].
Qed.

(** C8, as stated, fails: with a chassis that stays on and calls that take
    100 ms each, a wait for "off" entered at time 0 with a timeout of one
    second issues its third query at 1400 ms, after the deadline of 1000 ms. *)
Lemma wait_for_power_state_polls_after_deadline :
  log (snd (Bm.wait_for_power_state (Bm.stays_on 100) Bm.bmc_conn false 1
              (mkWorld 0 [])))
  = [ (0, Bm.GetChassisStatus); (100, Bm.Sleep 500);
      (700, Bm.GetChassisStatus); (800, Bm.Sleep 500);
      (1400, Bm.GetChassisStatus) ]
  /\ 0 + 1000 * 1 < 1400.
Proof. split; [vm_compute; reflexivity | lia]. Qed.

(** ** Totality of the two step functions *)

Section Ends.
Context {C : Type}.

Lemma ends_ret {A} (a : A) : ends (@ret C A a).
Proof. intros w. discriminate. Qed.

Lemma ends_raise {A} (e : exn) : ends (@raise C A e).
Proof. intros w. discriminate. Qed.

Lemma ends_time : ends (@time C).
Proof. intros w. discriminate. Qed.

Lemma ends_bind {A B} (m : M C A) (k : A -> M C B) :
  ends m -> (forall a, ends (k a)) -> ends (bind m k).
Proof.
  intros Hm Hk w. unfold bind. specialize (Hm w).
  destruct (m w) as [[a| |] w']; cbn in *; [apply Hk | discriminate | congruence].
Qed.

Lemma ends_try {A} (body : M C A) (handler : exn -> option (M C A)) :
  ends body -> (forall e h, handler e = Some h -> ends h) ->
  ends (try_except body handler).
Proof.
  intros Hb Hh w. unfold try_except. specialize (Hb w).
  destruct (body w) as [[a|e|] w']; cbn in *; [discriminate | | congruence].
  destruct (handler e) as [h|] eqn:He; [exact (Hh e h He w') | discriminate].
Qed.

Lemma ends_local {A} (var : string) (v : option A) : ends (@local C A var v).
Proof. destruct v; [apply ends_ret | apply ends_raise]. Qed.

End Ends.

Lemma ends_get_chassis_status (b : Bm.Bmc) (c : Bm.connection) :
  ends (Bm.get_chassis_status b c).
Proof.
  intros w. unfold Bm.get_chassis_status. cbn.
  destruct (Bm.status_reply b _); discriminate.
Qed.

Lemma ends_chassis_control (b : Bm.Bmc) (c : Bm.connection) (n : Z) :
  ends (Bm.chassis_control b c n).
Proof.
  intros w. unfold Bm.chassis_control. cbn.
  destruct (Bm.control_reply b n); discriminate.
Qed.

Lemma ends_establish (b : Bm.Bmc) (c : Bm.connection) : ends (Bm.establish b c).
Proof.
  intros w. unfold Bm.establish. cbn.
  destruct (Bm.establish_reply b); discriminate.
Qed.

Lemma ends_wait_for_power_state (b : Bm.Bmc) (c : Bm.connection) (d : bool) (t : Z) :
  ends (Bm.wait_for_power_state b c d t).
Proof.
  intros w.
  change (Bm.wait_for_power_state b c d t w)
    with (Bm.poll (S (Z.to_nat (2 * t))) b c d (now w + 1000 * t) w).
  destruct (poll_spec b c d (now w + 1000 * t) (Z.to_nat (2 * t)) w)
    as (n & added & _ & Hrun); [lia|].
  exact (poll_run_ends _ _ _ _ _ _ _ _ Hrun).
Qed.

Lemma ends_request (b : Aws.Ec2) (c : Aws.call) (reply : option exn) :
  ends (Aws.request b c reply).
Proof. intros w. unfold Aws.request. cbn. destruct reply; discriminate. Qed.

Lemma ends_load (b : Aws.Ec2) : ends (Aws.load b).
Proof.
  intros w. unfold Aws.load. cbn. destruct (Aws.load_reply b _); discriminate.
Qed.

Create HintDb ends.
#[local] Hint Resolve ends_ret ends_raise ends_time ends_local
  ends_get_chassis_status ends_chassis_control ends_establish
  ends_wait_for_power_state ends_request ends_load : ends.

Ltac ends_step :=
  match goal with
  | |- ends (bind _ _) => apply ends_bind; [|intros ?]
  | |- ends (try_except _ _) => apply ends_try; [|intros ? ? ?]
  | |- ends (if ?c then _ else _) => destruct c
  | |- ends (match ?x with _ => _ end) => destruct x
  | |- ends (let (_, _) := ?x in _) => destruct x
  | |- ends _ => solve [auto with ends]
  end.

Ltac ends_handler :=
  match goal with
  | H : match ?e with _ => _ end = Some _ |- _ =>
      destruct e; try discriminate H; injection H as <-; auto with ends
  end.

(** [ipmi_action] returns or raises from every state, for every BMC: the
    budget of the poll loop is never the reason why a run stops. *)
Lemma ipmi_action_ends (b : Bm.Bmc) (p : Bm.NodeActionParams) :
  ends (Bm.ipmi_action b p).
Proof.
  unfold Bm.ipmi_action, Bm.dispatch, Bm.reconcile, Bm.get_ipmi_connection,
    Bm.call_wait_for_power_state.
  repeat ends_step. all: ends_handler.
Qed.

(** [aws_action] has no loop of its own; it returns or raises. *)
Lemma aws_action_ends (b : Aws.Ec2) (p : Aws.NodeActionParams) :
  ends (Aws.aws_action b p).
Proof.
  unfold Aws.aws_action, Aws.get_boto3_ec2_client, Aws.check_reboot,
    Aws.dispatch, Aws.reconcile, Aws.reload, Aws.state_name,
    Aws.wait_for_power_state.
  repeat ends_step. all: try ends_handler.
Qed.

(** ** The classification of the actions *)

(** No member of the enum passes the test of line 135, which compares a
    string with a member. *)
Lemma is_diagnostic_interrupt_false (a : Bm.NodeAction) :
  Bm.is_diagnostic_interrupt a = false.
Proof. now destruct a. Qed.

(** Only [REBOOT] passes the test of line 134, whose second operand compares
    a member with a string. *)
Lemma is_restart_reboot_only (a : Bm.NodeAction) :
  Bm.is_restart a = true <-> a = Bm.REBOOT.
Proof. destruct a; cbn; split; intros H; congruence. Qed.

(** The intended final states the two plugins compute. *)
Lemma intended_final_power_states :
  Bm.intended_final_power_state Bm.START = true /\
  Bm.intended_final_power_state Bm.REBOOT = true /\
  Bm.intended_final_power_state Bm.STOP = false /\
  Bm.intended_final_power_state Bm.SOFT_STOP = false /\
  Aws.intended_final_power_state Aws.START = true /\
  Aws.intended_final_power_state Aws.REBOOT = true /\
  Aws.intended_final_power_state Aws.STOP = false /\
  Aws.intended_final_power_state Aws.FORCE_STOP = false.
Proof. repeat split. Qed.

(** ** Runs of [ipmi_action] on concrete requests *)

(** C1.  The code does not do what the claim says.  The diagnostic-interrupt
    flag is false for every action; a diagnostic interrupt with [wait=true]
    on a chassis that stays on polls for "off" until the timeout (here one
    second: three queries, two sleeps) and returns the error of the final
    state check. *)
Theorem diagnostic_interrupt_waits_for_off :
  (forall a, Bm.is_diagnostic_interrupt a = false) /\
  Bm.run (Bm.stays_on 0) (Bm.ask Bm.DIAGNOSTIC_INTERRUPT true 1) 0
  = (Ok (Bm.error_result "Did not reach desired final state within timeout period"),
     mkWorld 1000
       [ (0, Bm.Establish "127.0.0.1" 623 "user" "password");
         (0, Bm.ChassisControl 4);
         (0, Bm.GetChassisStatus); (0, Bm.Sleep 500);
         (500, Bm.GetChassisStatus); (500, Bm.Sleep 500);
         (1000, Bm.GetChassisStatus);
         (1000, Bm.GetChassisStatus) ]).
Proof. split; [exact is_diagnostic_interrupt_false | vm_compute; reflexivity]. Qed.

(** C2.  The code does not do what the claim says for [HARD_RESET]: the
    action is not classified as a restart and its intended final state is
    "off".  With [wait=true] on a chassis that is on at the first query and
    off afterwards, there is no query before the command and no first phase,
    the wait is for "off", and the call succeeds with the chassis off; on a
    chassis that stays on it returns the error of the final state check. *)
Theorem hard_reset_waits_for_off :
  Bm.is_restart Bm.HARD_RESET = false /\
  Bm.intended_final_power_state Bm.HARD_RESET = false /\
  Bm.run (Bm.on_until 1) (Bm.ask Bm.HARD_RESET true 1) 0
  = (Ok (Bm.success_result 500 false),
     mkWorld 500
       [ (0, Bm.Establish "127.0.0.1" 623 "user" "password");
         (0, Bm.ChassisControl 3);
         (0, Bm.GetChassisStatus); (0, Bm.Sleep 500);
         (500, Bm.GetChassisStatus);
         (500, Bm.GetChassisStatus) ]) /\
  fst (Bm.run (Bm.stays_on 0) (Bm.ask Bm.HARD_RESET true 1) 0)
  = Ok (Bm.error_result "Did not reach desired final state within timeout period").
Proof. repeat split; vm_compute; reflexivity. Qed.

(** C4.  The code does not do what the claim says: a reboot with [wait=true]
    on a chassis that is on raises [TypeError] at line 157, after the command
    went out, and the caller receives no typed outcome. *)
Theorem reboot_wait_raises :
  Bm.run (Bm.stays_on 0) (Bm.ask Bm.REBOOT true 30) 0
  = (Raise Bm.missing_timeout,
     mkWorld 0
       [ (0, Bm.Establish "127.0.0.1" 623 "user" "password");
         (0, Bm.GetChassisStatus);
         (0, Bm.ChassisControl 2) ]) /\
  is_typed_outcome (fst (Bm.run (Bm.stays_on 0) (Bm.ask Bm.REBOOT true 30) 0))
  = false.
Proof. split; vm_compute; reflexivity. Qed.

(** Other faults that reach the caller as raised exceptions: a malformed
    port in the address, a failure of the status query of line 163, and on
    the AWS side a failure of the command, which no [try] surrounds. *)
Lemma uncaught_faults :
  fst (Bm.run (Bm.stays_on 0)
         (Bm.mkParams Bm.STOP "10.0.0.1:ipmi" (Some "user") (Some "password") false 30) 0)
  = Raise (ValueError "invalid literal for int() with base 10: 'ipmi'") /\
  fst (Bm.run (Bm.mkBmc None (fun _ => inl (IpmiConnectionError "lost"))
                        (fun _ => None) (fun _ => 0%N))
         (Bm.ask Bm.STOP false 30) 0)
  = Raise (IpmiConnectionError "lost") /\
  fst (Aws.run (Aws.mkEc2 None (fun _ => inr "running")
                          (Some (LibraryError "ClientError" "UnauthorizedOperation"))
                          None (fun _ => 0%N))
         (Aws.ask Aws.STOP false 30) 0)
  = Raise (LibraryError "ClientError" "UnauthorizedOperation").
Proof. repeat split; vm_compute; reflexivity. Qed.

Ltac run_ipmi :=
  unfold Bm.run, Bm.ipmi_action, Bm.dispatch, Bm.reconcile,
    Bm.get_ipmi_connection, Bm.call_wait_for_power_state, Bm.establish,
    Bm.get_chassis_status, Bm.chassis_control, try_except, bind, ret, raise,
    local, time, issue, count_calls.

(** C5.  The code does not do what the claim says on the IPMI backend: for
    every BMC that accepts the session and the command and reports the
    chassis on before the command, whatever it reports afterwards, a reboot
    with [wait=true] ends by raising [TypeError]; the result is neither the
    success outcome nor a timeout error. *)
Theorem reboot_wait_on_raises (b : Bm.Bmc) (p : Bm.NodeActionParams) (t0 : Z)
    (u pw : string) (hp : string * Z) :
  Bm.action p = Bm.REBOOT -> Bm.wait p = true ->
  Bm.user p = Some u -> Bm.password p = Some pw ->
  Bm.parse_bmc_addr (Bm.addr p) = inr hp ->
  Bm.establish_reply b = None ->
  Bm.status_reply b 0 = inr true ->
  Bm.control_reply b 2 = None ->
  fst (Bm.run b p t0) = Raise Bm.missing_timeout /\
  is_typed_outcome (fst (Bm.run b p t0)) = false.
Proof.
  intros Ha Hw Hu Hp Hparse He Hs Hc.
  destruct hp as [host port].
  assert (Hrun : fst (Bm.run b p t0) = Raise Bm.missing_timeout).
  { run_ipmi. rewrite Ha, Hw, Hu, Hp, Hparse. cbn. rewrite He. cbn.
    rewrite Hs. cbn. rewrite Hc. reflexivity. }
  split; [exact Hrun | now rewrite Hrun].
Qed.

Lemma reboot_wait_on_raises_witness :
  fst (Bm.run (Bm.stays_on 0) (Bm.ask Bm.REBOOT true 30) 0)
  = Raise Bm.missing_timeout /\
  is_typed_outcome (fst (Bm.run (Bm.stays_on 0) (Bm.ask Bm.REBOOT true 30) 0))
  = false.
Proof.
  apply (reboot_wait_on_raises (Bm.stays_on 0) (Bm.ask Bm.REBOOT true 30) 0
           "user" "password" ("127.0.0.1", 623)); reflexivity.
Defined.

(** ** Missing credentials *)


(** Called on its own, [get_ipmi_connection] reads the port before it looks
    at the credentials: with no user and a port that is not a number it
    raises [ValueError]. *)
Example get_ipmi_connection_bad_port_first :
  fst (Bm.get_ipmi_connection (Bm.stays_on 0) "10.0.0.1:ipmi" None (Some "password")
         (mkWorld 0 []))
  = Raise (ValueError "invalid literal for int() with base 10: 'ipmi'").
Proof. vm_compute; reflexivity. Qed.



(** On a request with both credentials the step is the body. *)
Lemma step_runs_body (b : Bm.Bmc) (p : Bm.NodeActionParams) (t0 : Z) (u pw : string) :
  Bm.user p = Some u -> Bm.password p = Some pw ->
  Bm.run_step b p t0 = Bm.run b p t0.
Proof.
  intros Hu Hp. unfold Bm.run_step, Bm.ipmi_action_step, Bm.validate_input.
  now rewrite Hu, Hp.
Qed.

(** ** Requests that do not wait *)

Ltac case_reply :=
  match goal with
  | |- context [match Bm.establish_reply ?b with _ => _ end] =>
      destruct (Bm.establish_reply b) as [[]|] eqn:?
  | |- context [match Bm.status_reply ?b ?n with _ => _ end] =>
      destruct (Bm.status_reply b n) as [[]|[]] eqn:?
  | |- context [match Bm.control_reply ?b ?n with _ => _ end] =>
      destruct (Bm.control_reply b n) as [[]|] eqn:?
  end.

Ltac run_aws :=
  unfold Aws.run, Aws.aws_action, Aws.get_boto3_ec2_client, Aws.check_reboot,
    Aws.dispatch, Aws.reconcile, Aws.reload, Aws.state_name, Aws.load,
    Aws.wait_for_power_state, Aws.request, try_except, bind, ret, raise, time,
    issue, count_calls.

Ltac case_aws_reply :=
  match goal with
  | |- context [match Aws.session_reply ?b with _ => _ end] =>
      destruct (Aws.session_reply b) as [[]|] eqn:?
  | |- context [match Aws.load_reply ?b ?n with _ => _ end] =>
      destruct (Aws.load_reply b n) as [[]|?] eqn:?
  | |- context [match Aws.command_reply ?b with _ => _ end] =>
      destruct (Aws.command_reply b) as [[]|] eqn:?
  | |- context [match Aws.wait_reply ?b with _ => _ end] =>
      destruct (Aws.wait_reply b) as [[]|] eqn:?
  | |- context [(?s =? "stopped")%string] =>
      destruct (s =? "stopped")%string eqn:?
  | |- context [(?s =? "terminated")%string] =>
      destruct (s =? "terminated")%string eqn:?
  end.

(** [ipmi_action] with [wait=false]: success exactly when the command was
    accepted and the query after it returned; the state reported is the reply
    to that query. *)
Lemma ipmi_no_wait (b : Bm.Bmc) (p : Bm.NodeActionParams) (t0 : Z) :
  Bm.wait p = false ->
  is_success (fst (Bm.run b p t0))
  = Bm.dispatched b p && Bm.final_query_returns b (Bm.action p) /\
  (forall ms on, fst (Bm.run b p t0) = Ok (Bm.success_result ms on) ->
     Bm.status_reply b (Bm.final_query_index (Bm.action p)) = inr on /\
     exists l t1 n t2,
       log (snd (Bm.run b p t0))
       = (l ++ [(t1, Bm.ChassisControl n); (t2, Bm.GetChassisStatus)])%list).
Proof.
  destruct p as [a addr u pw wt timeout]. cbn [Bm.wait]. intros ->.
  unfold Bm.dispatched, Bm.final_query_returns. run_ipmi.
  cbn [Bm.action Bm.addr Bm.user Bm.password Bm.wait].
  destruct (Bm.parse_bmc_addr addr) as [[]|[host port]];
    try (split; [reflexivity | intros ms on H; discriminate H]).
  destruct u as [u|], pw as [pw|];
    try (split; [reflexivity | intros ms on H; discriminate H]).
  destruct a; cbn; repeat (case_reply; cbn);
    (split; [reflexivity | intros ms on H; try discriminate H]).
  all: injection H as <- <-; (split; [reflexivity|]).
  all: eexists _, _, _, _; cbn.
  all: first [ apply (@eq_refl _ ([_] ++ [_; _])%list)
             | apply (@eq_refl _ ([_; _] ++ [_; _])%list) ].
Qed.

(** [aws_action] with [wait=false], likewise; the state reported is that of
    the one load after the command. *)
Lemma aws_no_wait (b : Aws.Ec2) (p : Aws.NodeActionParams) (t0 : Z) :
  Aws.wait p = false ->
  is_success (fst (Aws.run b p t0))
  = Aws.dispatched b p && Aws.final_load_returns b (Aws.action p) /\
  (forall ms on, fst (Aws.run b p t0) = Ok (Aws.success_result ms on) ->
     (exists name,
        Aws.load_reply b (Aws.final_load_index (Aws.action p)) = inr name /\
        on = (name =? "running")%string) /\
     exists l t1 c t2,
       Aws.is_command c = true /\
       log (snd (Aws.run b p t0)) = (l ++ [(t1, c); (t2, Aws.Load)])%list).
Proof.
  destruct p as [a id key secret region wt timeout]. cbn [Aws.wait]. intros ->.
  unfold Aws.dispatched, Aws.final_load_returns. run_aws.
  cbn [Aws.action Aws.instance_id Aws.aws_access_key_id
       Aws.aws_access_private_key Aws.aws_region Aws.wait Aws.meta_data].
  destruct a; cbn; repeat (case_aws_reply; cbn);
    (split; [reflexivity | intros ms on H; try discriminate H]).
  all: injection H as <- <-; (split; [eexists; split; reflexivity|]).
  all: eexists _, _, _, _; cbn.
  all: split; cycle 1;
    [ first [ apply (@eq_refl _ ([_] ++ [_; _])%list)
            | apply (@eq_refl _ ([_; _] ++ [_; _])%list) ]
    | reflexivity ].
Qed.

Lemma ipmi_same_faults (b b' : Bm.Bmc) (p : Bm.NodeActionParams) :
  Bm.same_faults b b' ->
  Bm.dispatched b' p && Bm.final_query_returns b' (Bm.action p)
  = Bm.dispatched b p && Bm.final_query_returns b (Bm.action p).
Proof.
  intros (He & Hc & Hs). unfold Bm.dispatched, Bm.final_query_returns.
  rewrite He, !Hs.
  destruct (Bm.parse_bmc_addr (Bm.addr p)); [reflexivity|].
  destruct (Bm.user p), (Bm.password p); try reflexivity.
  destruct (Bm.dict_get Bm.nodeActionEnumToInt (Bm.value (Bm.action p)));
    [now rewrite Hc | reflexivity].
Qed.

Lemma aws_same_faults (b b' : Aws.Ec2) (p : Aws.NodeActionParams) :
  Aws.same_faults b b' p ->
  Aws.dispatched b' p && Aws.final_load_returns b' (Aws.action p)
  = Aws.dispatched b p && Aws.final_load_returns b (Aws.action p).
Proof.
  intros (Hs & Hc & Hl & Hf). unfold Aws.dispatched, Aws.final_load_returns.
  rewrite Hs, Hc, Hf.
  destruct (Aws.is_action (Aws.action p) Aws.REBOOT);
    [now rewrite Hl | reflexivity].
Qed.

(** C6, as stated, fails: the BMC accepts the session and the command of a
    [STOP] with [wait=false], the state query that follows raises, and the
    operation does not return the success outcome. *)
Lemma no_wait_accepted_but_query_fails :
  Bm.dispatched
    (Bm.mkBmc None (fun _ => inl (IpmiConnectionError "lost"))
              (fun _ => None) (fun _ => 0%N))
    (Bm.ask Bm.STOP false 30) = true /\
  Bm.run (Bm.mkBmc None (fun _ => inl (IpmiConnectionError "lost"))
                   (fun _ => None) (fun _ => 0%N))
         (Bm.ask Bm.STOP false 30) 0
  = (Raise (IpmiConnectionError "lost"),
     mkWorld 0
       [ (0, Bm.Establish "127.0.0.1" 623 "user" "password");
         (0, Bm.ChassisControl 0);
         (0, Bm.GetChassisStatus) ]) /\
  is_success
    (fst (Bm.run (Bm.mkBmc None (fun _ => inl (IpmiConnectionError "lost"))
                           (fun _ => None) (fun _ => 0%N))
                 (Bm.ask Bm.STOP false 30) 0)) = false.
Proof. repeat split; vm_compute; reflexivity. Qed.

(** C6, as amended.  With [wait=false], on either backend: the operation
    returns the success outcome only if the backend accepted the dispatched
    command ([dispatched]); provided the one state query that follows the
    command returns, it returns the success outcome if and only if the
    backend accepted the command.  The power states that the backend reports
    have no influence on that: a backend that fails alike and reports other
    states gives the same verdict.  When the outcome is success, the state
    was queried once after the command, as the last call of the run, and
    [final_power_state_on] is what that query observed. *)
Theorem no_wait_success_iff_dispatched (bb : Bm.Bmc) (bp : Bm.NodeActionParams)
    (ab : Aws.Ec2) (ap : Aws.NodeActionParams) (t0 : Z) :
  Bm.wait bp = false -> Aws.wait ap = false ->
  ((is_success (fst (Bm.run bb bp t0)) = true -> Bm.dispatched bb bp = true) /\
   (Bm.final_query_returns bb (Bm.action bp) = true ->
      is_success (fst (Bm.run bb bp t0)) = Bm.dispatched bb bp) /\
   (forall bb', Bm.same_faults bb bb' ->
      is_success (fst (Bm.run bb' bp t0)) = is_success (fst (Bm.run bb bp t0))) /\
   (forall ms on, fst (Bm.run bb bp t0) = Ok (Bm.success_result ms on) ->
      Bm.status_reply bb (Bm.final_query_index (Bm.action bp)) = inr on /\
      exists l t1 n t2,
        log (snd (Bm.run bb bp t0))
        = (l ++ [(t1, Bm.ChassisControl n); (t2, Bm.GetChassisStatus)])%list))
  /\
  ((is_success (fst (Aws.run ab ap t0)) = true -> Aws.dispatched ab ap = true) /\
   (Aws.final_load_returns ab (Aws.action ap) = true ->
      is_success (fst (Aws.run ab ap t0)) = Aws.dispatched ab ap) /\
   (forall ab', Aws.same_faults ab ab' ap ->
      is_success (fst (Aws.run ab' ap t0)) = is_success (fst (Aws.run ab ap t0))) /\
   (forall ms on, fst (Aws.run ab ap t0) = Ok (Aws.success_result ms on) ->
      (exists name,
         Aws.load_reply ab (Aws.final_load_index (Aws.action ap)) = inr name /\
         on = (name =? "running")%string) /\
      exists l t1 c t2,
        Aws.is_command c = true /\
        log (snd (Aws.run ab ap t0)) = (l ++ [(t1, c); (t2, Aws.Load)])%list)).
Proof.
  intros Hb Ha. split.
  - destruct (ipmi_no_wait bb bp t0 Hb) as [Hs Hrep].
    split; [|split; [|split; [|exact Hrep]]].
    + rewrite Hs. intros H. now apply andb_prop in H.
    + intros Hq. now rewrite Hs, Hq, andb_true_r.
    + intros bb' Hsame. rewrite Hs.
      destruct (ipmi_no_wait bb' bp t0 Hb) as [Hs' _]. rewrite Hs'.
      now apply ipmi_same_faults.
  - destruct (aws_no_wait ab ap t0 Ha) as [Hs Hrep].
    split; [|split; [|split; [|exact Hrep]]].
    + rewrite Hs. intros H. now apply andb_prop in H.
    + intros Hq. now rewrite Hs, Hq, andb_true_r.
    + intros ab' Hsame. rewrite Hs.
      destruct (aws_no_wait ab' ap t0 Ha) as [Hs' _]. rewrite Hs'.
      now apply aws_same_faults.
Qed.

Lemma no_wait_success_iff_dispatched_witness :
  is_success (fst (Bm.run (Bm.stays_on 0) (Bm.ask Bm.STOP false 30) 0))
  = Bm.dispatched (Bm.stays_on 0) (Bm.ask Bm.STOP false 30) /\
  is_success (fst (Aws.run (Aws.in_state "running") (Aws.ask Aws.STOP false 30) 0))
  = Aws.dispatched (Aws.in_state "running") (Aws.ask Aws.STOP false 30).
Proof.
  destruct (no_wait_success_iff_dispatched
              (Bm.stays_on 0) (Bm.ask Bm.STOP false 30)
              (Aws.in_state "running") (Aws.ask Aws.STOP false 30) 0
              eq_refl eq_refl) as [(_ & Hb & _) (_ & Ha & _)].
  split; [exact (Hb eq_refl) | exact (Ha eq_refl)].
Defined.

(** With [wait=false] a chassis that stays on after [STOP] and an instance
    that is still running after [STOP] are both reported with the success
    outcome. *)
Example no_wait_reports_state :
  fst (Bm.run (Bm.stays_on 0) (Bm.ask Bm.STOP false 30) 0)
  = Ok (Bm.success_result 0 true) /\
  fst (Aws.run (Aws.in_state "running") (Aws.ask Aws.STOP false 30) 0)
  = Ok (Aws.success_result 15 true).
Proof. split; vm_compute; reflexivity. Qed.

(** ** The precondition of a reboot *)

(** C3, as stated, fails on the IPMI backend: a reboot requested while the
    chassis is off is sent to the BMC ([ChassisControl 2]) and, with
    [wait=false], the operation returns the success outcome. *)
Lemma ipmi_reboot_while_off_dispatches :
  Bm.run Bm.stays_off (Bm.ask Bm.REBOOT false 30) 0
  = (Ok (Bm.success_result 0 false),
     mkWorld 0
       [ (0, Bm.Establish "127.0.0.1" 623 "user" "password");
         (0, Bm.GetChassisStatus);
         (0, Bm.ChassisControl 2);
         (0, Bm.GetChassisStatus) ]).
Proof. vm_compute; reflexivity. Qed.

(** C3, as amended.  On the AWS backend, a reboot requested while the
    instance state is "stopped" or "terminated" returns the error outcome
    "Node must be running to reboot." and no command is sent to EC2. *)
Theorem aws_reboot_requires_running (b : Aws.Ec2) (p : Aws.NodeActionParams)
    (t0 : Z) (name : string) :
  Aws.action p = Aws.REBOOT ->
  Aws.session_reply b = None ->
  Aws.load_reply b 0 = inr name ->
  name = "stopped" \/ name = "terminated" ->
  fst (Aws.run b p t0) = Ok (Aws.error_result "Node must be running to reboot.") /\
  count_calls Aws.is_command (log (snd (Aws.run b p t0))) = 0%nat.
Proof.
  intros Ha Hs Hl Hname. run_aws. rewrite Ha, Hs. cbn. rewrite Hl. cbn.
  destruct Hname as [-> | ->]; cbn; split; reflexivity.
Qed.

Lemma aws_reboot_requires_running_witness :
  fst (Aws.run (Aws.in_state "terminated") (Aws.ask Aws.REBOOT true 30) 0)
  = Ok (Aws.error_result "Node must be running to reboot.") /\
  count_calls Aws.is_command
    (log (snd (Aws.run (Aws.in_state "terminated") (Aws.ask Aws.REBOOT true 30) 0)))
  = 0%nat.
Proof.
  apply (aws_reboot_requires_running (Aws.in_state "terminated")
           (Aws.ask Aws.REBOOT true 30) 0 "terminated");
    [reflexivity | reflexivity | reflexivity | right; reflexivity].
Defined.

(** ** Terminate *)

(** C7.  For a terminate with [wait=true]: the run is the same whatever
    [wait_timeout] is; no waiter that takes a timeout is called; once the
    command is out the waiter called is [wait_until_terminated]; and when that
    waiter returns and the instance is then "terminated", the result is the
    success outcome with [final_power_state_on = false]. *)
Theorem terminate_ignores_timeout (b : Aws.Ec2) (p : Aws.NodeActionParams) (t0 : Z) :
  Aws.action p = Aws.TERMINATE -> Aws.wait p = true ->
  (forall t, Aws.run b (Aws.with_timeout p t) t0 = Aws.run b p t0) /\
  count_calls Aws.is_timed_wait (log (snd (Aws.run b p t0))) = 0%nat /\
  (Aws.session_reply b = None -> Aws.command_reply b = None ->
     count_calls Aws.is_terminal_wait (log (snd (Aws.run b p t0))) = 1%nat) /\
  (Aws.session_reply b = None -> Aws.command_reply b = None ->
   Aws.wait_reply b = None -> Aws.load_reply b 0 = inr "terminated" ->
     exists ms, fst (Aws.run b p t0) = Ok (Aws.success_result ms false)).
Proof.
  destruct p as [a id key secret region wt timeout].
  cbn [Aws.action Aws.wait]. intros -> ->.
  split; [|split; [|split]].
  - intros t. reflexivity.
  - run_aws. cbn. repeat (case_aws_reply; cbn); try reflexivity;
      destruct (_ =? "running")%string; reflexivity.
  - intros Hs Hc. run_aws. cbn. rewrite Hs. cbn. rewrite Hc. cbn.
    repeat (case_aws_reply; cbn); try reflexivity;
      destruct (_ =? "running")%string; reflexivity.
  - intros Hs Hc Hw Hl. run_aws. cbn. rewrite Hs. cbn. rewrite Hc. cbn.
    rewrite Hw. cbn. rewrite Hl. cbn. eexists. reflexivity.
Qed.

Lemma terminate_ignores_timeout_witness :
  Aws.run (Aws.in_state "terminated")
          (Aws.with_timeout (Aws.ask Aws.TERMINATE true 30) 0) 0
  = Aws.run (Aws.in_state "terminated") (Aws.ask Aws.TERMINATE true 30) 0 /\
  count_calls Aws.is_terminal_wait
    (log (snd (Aws.run (Aws.in_state "terminated")
                 (Aws.ask Aws.TERMINATE true 30) 0))) = 1%nat /\
  exists ms,
    fst (Aws.run (Aws.in_state "terminated") (Aws.ask Aws.TERMINATE true 30) 0)
    = Ok (Aws.success_result ms false).
Proof.
  destruct (terminate_ignores_timeout (Aws.in_state "terminated")
              (Aws.ask Aws.TERMINATE true 30) 0 eq_refl eq_refl)
    as (Hsame & _ & Hwait & Hres).
  split; [exact (Hsame 0)|].
  split; [exact (Hwait eq_refl eq_refl)|].
  exact (Hres eq_refl eq_refl eq_refl eq_refl).
Defined.

(** A terminate that waits, on an instance that ends up terminated. *)
Example terminate_run :
  Aws.run (Aws.in_state "terminated") (Aws.ask Aws.TERMINATE true 30) 0
  = (Ok (Aws.success_result 20 false),
     mkWorld 20
       [ (0, Aws.Session "key" "secret" "us-east-2" "i-0123");
         (5, Aws.TerminateInstances "i-0123");
         (10, Aws.WaitUntilTerminated);
         (15, Aws.Load) ]).
Proof. vm_compute; reflexivity. Qed.

(** ** The address of the BMC *)

Lemma prefix_app (sub b : string) : String.prefix sub (sub ++ b) = true.
Proof.
  induction sub as [|c sub IH]; cbn.
  - now destruct b.
  - destruct (ascii_dec c c); [exact IH | congruence].
Qed.

Lemma prefix_split (sub s : string) :
  String.prefix sub s = true -> s = sub ++ PyStr.drop (String.length sub) s.
Proof.
  revert s. induction sub as [|c sub IH]; intros s H; cbn.
  - reflexivity.
  - destruct s as [|c' s]; cbn in H; [discriminate|].
    destruct (ascii_dec c c') as [<-|]; [|discriminate].
    f_equal. now apply IH.
Qed.

(** An occurrence of [sub] in a string that does not start with [sub] lies in
    its tail. *)
Lemma no_prefix_split (sub s a b : string) :
  String.prefix sub s = false -> s = a ++ sub ++ b ->
  exists c a' s', a = String c a' /\ s = String c s' /\ s' = a' ++ sub ++ b.
Proof.
  intros Hp Hs. destruct a as [|c a'].
  - cbn in Hs. subst s. rewrite prefix_app in Hp. discriminate.
  - exists c, a', (a' ++ sub ++ b). now subst s.
Qed.

Lemma find_from_spec (sub : string) :
  forall (s : string) (i : Z), 0 <= i ->
    (PyStr.find_from i sub s = -1 /\ PyStr.absent sub s) \/
    (i <= PyStr.find_from i sub s /\
     let n := Z.to_nat (PyStr.find_from i sub s - i) in
     PyStr.first_split sub s (PyStr.take n s)
                       (PyStr.drop (n + String.length sub) s)).
Proof.
  induction s as [|c s IH]; intros i Hi.
  - cbn [PyStr.find_from]. destruct (String.prefix sub "") eqn:Hp.
    + right. split; [lia|]. rewrite Z.sub_diag. cbn.
      split; [now apply prefix_split | intros; cbn; lia].
    + left. split; [reflexivity|]. intros a b Hs.
      destruct (no_prefix_split _ _ _ _ Hp Hs) as (c & a' & s' & _ & H & _).
      discriminate.
  - cbn [PyStr.find_from]. destruct (String.prefix sub (String c s)) eqn:Hp.
    + right. split; [lia|]. rewrite Z.sub_diag. cbn.
      split; [now apply prefix_split | intros; cbn; lia].
    + destruct (IH (i + 1)) as [[Hj Habs] | [Hj Hsplit]]; [lia| |].
      * left. split; [exact Hj|]. intros a b Hs.
        destruct (no_prefix_split _ _ _ _ Hp Hs) as (c' & a' & s' & _ & H & H').
        injection H as _ <-. exact (Habs _ _ H').
      * right. split; [lia|]. cbv zeta in *.
        replace (Z.to_nat (PyStr.find_from (i + 1) sub s - i))
          with (S (Z.to_nat (PyStr.find_from (i + 1) sub s - (i + 1)))) by lia.
        destruct Hsplit as [Heq Hmin]. cbn. split.
        -- cbn. f_equal. exact Heq.
        -- intros a b Hs.
           destruct (no_prefix_split _ _ _ _ Hp Hs) as (c' & a' & s' & -> & H & H').
           injection H as _ <-. cbn. apply le_n_S. exact (Hmin _ _ H').
Qed.

(** [s.find(sub)] is -1 when [sub] does not occur in [s]; otherwise it is
    the index of the first occurrence: [s[0:k]] precedes it and
    [s[k + len(sub):]] follows it. *)
Lemma find_spec (s sub : string) :
  (PyStr.find s sub = -1 /\ PyStr.absent sub s) \/
  (0 <= PyStr.find s sub /\
   PyStr.first_split sub s (PyStr.slice_to (PyStr.find s sub) s)
     (PyStr.slice_from (PyStr.find s sub + Z.of_nat (String.length sub)) s)).
Proof.
  unfold PyStr.find, PyStr.slice_to, PyStr.slice_from.
  destruct (find_from_spec sub s 0 ltac:(lia)) as [H | [Hj H]]; [now left|].
  right. split; [exact Hj|]. cbv zeta in H. rewrite Z.sub_0_r in H.
  now replace (Z.to_nat (PyStr.find_from 0 sub s + Z.of_nat (String.length sub)))
    with (Z.to_nat (PyStr.find_from 0 sub s) + String.length sub)%nat by lia.
Qed.

(** C9.  For every address there is a remainder [rest]: what follows the
    first "://" if the address contains one, the whole address otherwise.
    If [rest] contains ":", the host is what precedes the first ":" and the
    port is [int] of what follows it (a [ValueError] if [int] rejects it);
    otherwise the host is [rest] and the port is 623. *)
Theorem parse_bmc_addr_spec (addr : string) :
  exists rest : string,
    ((exists scheme, PyStr.first_split "://" addr scheme rest) \/
     (PyStr.absent "://" addr /\ rest = addr)) /\
    ((exists host literal,
        PyStr.first_split ":" rest host literal /\
        Bm.parse_bmc_addr addr =
        match PyStr.int literal with
        | Some port => inr (host, port)
        | None => inl (ValueError ("invalid literal for int() with base 10: "
                                     ++ PyStr.repr literal))
        end) \/
     (PyStr.absent ":" rest /\ Bm.parse_bmc_addr addr = inr (rest, 623))).
Proof.
  unfold Bm.parse_bmc_addr.
  set (rest := if PyStr.find addr "://" =? -1 then addr
               else PyStr.slice_from (PyStr.find addr "://" + 3) addr).
  exists rest. split.
  - subst rest. destruct (find_spec addr "://") as [[Hm Habs] | [Hpos Hsplit]].
    + right. rewrite Hm. cbn. now split.
    + left. destruct (Z.eqb_spec (PyStr.find addr "://") (-1)); [lia|].
      eexists. exact Hsplit.
  - destruct (find_spec rest ":") as [[Hm Habs] | [Hpos Hsplit]].
    + right. rewrite Hm. cbn. now split.
    + left. destruct (Z.eqb_spec (PyStr.find rest ":") (-1)); [lia|].
      eexists _, _. split; [exact Hsplit|]. reflexivity.
Qed.

(** The address of the functional test, and one with a scheme. *)
Example parse_test_address :
  Bm.parse_bmc_addr "127.0.0.1:12345" = inr ("127.0.0.1", 12345) /\
  Bm.parse_bmc_addr "127.0.0.1" = inr ("127.0.0.1", 623) /\
  Bm.parse_bmc_addr "ipmi://10.0.0.1:6230" = inr ("10.0.0.1", 6230) /\
  Bm.parse_bmc_addr "ipmi://bmc.example" = inr ("bmc.example", 623).
Proof. repeat split. Qed.

(** * Further properties of the two plugins *)

(** ** Shared lemmas *)

Lemma calls_where_app {C} (p : C -> bool) (l1 l2 : list (Z * C)) :
  calls_where p (l1 ++ l2) = (calls_where p l1 ++ calls_where p l2)%list.
Proof. unfold calls_where. now rewrite map_app, filter_app. Qed.

Lemma count_calls_where {C} (p : C -> bool) (l : list (Z * C)) :
  count_calls p l = List.length (calls_where p l).
Proof.
  unfold count_calls, calls_where.
  induction l as [|[t c] l IH]; cbn; [reflexivity|].
  destruct (p c); cbn; now rewrite IH.
Qed.

Lemma filter_snd_app {C} (p : C -> bool) (l1 l2 : list (Z * C)) :
  List.length (filter (fun tc => p (snd tc)) (l1 ++ l2))
  = (List.length (filter (fun tc => p (snd tc)) l1)
     + List.length (filter (fun tc => p (snd tc)) l2))%nat.
Proof. now rewrite filter_app, length_app. Qed.

Lemma eqb_neq_false (s t : string) : s <> t -> (s =? t)%string = false.
Proof. apply String.eqb_neq. Qed.

(** The run of a wait, in the terms of [poll_run]. *)
Lemma wait_run (b : Bm.Bmc) (c : Bm.connection) (d : bool) (t : Z)
    (w : World Bm.call) :
  exists n added,
    (n <= Z.to_nat (2 * t))%nat /\
    Bm.poll_run b d (now w + 1000 * t) w
      (fst (Bm.wait_for_power_state b c d t w))
      (snd (Bm.wait_for_power_state b c d t w)) n added.
Proof.
  change (Bm.wait_for_power_state b c d t w)
    with (Bm.poll (S (Z.to_nat (2 * t))) b c d (now w + 1000 * t) w).
  apply poll_spec. lia.
Qed.

Lemma poll_calls_control (n : nat) : filter Bm.is_control (Bm.poll_calls n) = [].
Proof. induction n; cbn; auto. Qed.

Lemma poll_calls_establish (n : nat) :
  filter Bm.is_establish (Bm.poll_calls n) = [].
Proof. induction n; cbn; auto. Qed.

Lemma poll_calls_status (n : nat) :
  List.length (filter Bm.is_status (Bm.poll_calls n)) = S n.
Proof. induction n; cbn; auto. Qed.

Lemma poll_calls_sleep (n : nat) :
  filter Bm.is_sleep (Bm.poll_calls n) = repeat (Bm.Sleep 500) n.
Proof. induction n; cbn; [reflexivity | now rewrite IHn]. Qed.

Lemma poll_calls_status_count (added : list (Z * Bm.call)) (k : nat) :
  map snd added = Bm.poll_calls k -> count_calls Bm.is_status added = S k.
Proof.
  intros H. rewrite count_calls_where. unfold calls_where.
  rewrite H. apply poll_calls_status.
Qed.

Lemma bm_cost_le (b : Bm.Bmc) (L : Z) (w : World Bm.call) :
  (forall n, Z.of_N (Bm.call_ms b n) <= L) -> 0 <= Bm.cost b w <= L.
Proof.
  intros HL. unfold Bm.cost. specialize (HL (List.length (log w))). lia.
Qed.

Ltac case_wait :=
  match goal with
  | |- context [Bm.wait_for_power_state ?b ?c ?d ?t ?st] =>
      destruct (Bm.wait_for_power_state b c d t st) as [[[]| |] ?w] eqn:?
  end.

Ltac case_wait_run :=
  match goal with
  | |- context [Bm.wait_for_power_state ?b ?c ?d ?t ?st] =>
      let H := fresh "Hrun" in
      destruct (wait_run b c d t st) as (?n & ?added & ?Hn & H);
      destruct (Bm.wait_for_power_state b c d t st) as [?r ?w];
      cbn [fst snd] in H;
      destruct H as [?Hlog ?Hcalls ?Hmis ?Hlate ?Hclock ?Hres]
  end.

Ltac ipmi_open p :=
  destruct p as [a addr u pw wt timeout];
  run_ipmi;
  cbn [Bm.action Bm.addr Bm.user Bm.password Bm.wait Bm.wait_timeout].

Ltac ipmi_cbn := cbn -[Bm.wait_for_power_state Z.mul Z.add Z.to_nat].

Ltac bound_costs HL L :=
  repeat match goal with
         | |- context [Bm.cost ?b ?w] =>
             let c := fresh "c" in
             pose proof (bm_cost_le b L w HL);
             set (c := Bm.cost b w) in *; clearbody c
         | H : context [Bm.cost ?b ?w] |- _ =>
             let c := fresh "c" in
             pose proof (bm_cost_le b L w HL);
             set (c := Bm.cost b w) in *; clearbody c
         end.

Ltac aws_open p :=
  destruct p as [a id key secret region wt timeout];
  run_aws; unfold calls_where;
  cbn [Aws.action Aws.instance_id Aws.aws_access_key_id
       Aws.aws_access_private_key Aws.aws_region Aws.wait Aws.wait_timeout
       Aws.meta_data].

Ltac aws_passes H :=
  match type of H with
  | Aws.passes_check ?b ?a =>
      first [ destruct (H eq_refl) as (?name & ?Hload & ?Hns & ?Hnt)
            | clear H ]
  end.

Ltac aws_checked :=
  try match goal with
      | Hload : Aws.load_reply _ 0%nat = inr _,
        Hns : _ <> "stopped", Hnt : _ <> "terminated" |- _ =>
          rewrite Hload; cbn;
          rewrite (eqb_neq_false _ _ Hns), (eqb_neq_false _ _ Hnt); cbn
      end.

(** ** The IPMI plugin *)

(** X1.  The table of command numbers has an entry between 0 and 5 for the
    value of every action, distinct actions have distinct numbers, and a key
    that is the value of no action has no entry. *)
Theorem node_action_codes :
  (forall a, exists n,
      Bm.dict_get Bm.nodeActionEnumToInt (Bm.value a) = Some n /\ 0 <= n <= 5) /\
  (forall a a',
      Bm.dict_get Bm.nodeActionEnumToInt (Bm.value a)
      = Bm.dict_get Bm.nodeActionEnumToInt (Bm.value a') -> a = a') /\
  (forall key, (forall a, Bm.value a <> key) ->
      Bm.dict_get Bm.nodeActionEnumToInt key = None).
Proof.
  split; [|split].
  - intros a. destruct a; eexists; (split; [reflexivity | lia]).
  - intros a a' H. destruct a, a'; cbn in H; congruence.
  - intros key Hk. unfold Bm.nodeActionEnumToInt. cbn [Bm.dict_get].
    repeat match goal with
           | |- context [(?v =? key)%string] =>
               destruct (String.eqb_spec v key) as [Heq|_];
               [ exfalso;
                 first [ exact (Hk Bm.STOP Heq) | exact (Hk Bm.START Heq)
                       | exact (Hk Bm.REBOOT Heq) | exact (Hk Bm.HARD_RESET Heq)
                       | exact (Hk Bm.DIAGNOSTIC_INTERRUPT Heq)
                       | exact (Hk Bm.SOFT_STOP Heq) ] | ]
           end.
    reflexivity.
Qed.

Lemma node_action_codes_witness :
  Bm.dict_get Bm.nodeActionEnumToInt "power_cycle" = None.
Proof.
  apply (proj2 (proj2 node_action_codes)).
  intros a; destruct a; discriminate.
Defined.

(** X2.  In every run of [ipmi_action], whatever the BMC does, at most one
    session is established and at most one chassis command is sent; the
    command, if any, carries the number of the requested action. *)
Theorem ipmi_single_command (b : Bm.Bmc) (p : Bm.NodeActionParams) (t0 : Z) :
  (calls_where Bm.is_control (log (snd (Bm.run b p t0))) = [] \/
   exists n,
     Bm.dict_get Bm.nodeActionEnumToInt (Bm.value (Bm.action p)) = Some n /\
     calls_where Bm.is_control (log (snd (Bm.run b p t0)))
     = [Bm.ChassisControl n]) /\
  (List.length (calls_where Bm.is_establish (log (snd (Bm.run b p t0)))) <= 1)%nat.
Proof.
  ipmi_open p. unfold calls_where.
  destruct (Bm.parse_bmc_addr addr) as [[]|[host port]]; ipmi_cbn; auto.
  destruct u as [u|], pw as [pw|]; ipmi_cbn; auto.
  destruct wt, a; ipmi_cbn; repeat (case_reply; ipmi_cbn); eauto.
  all: case_wait_run; destruct r as [[]| |]; ipmi_cbn;
    repeat (case_reply; ipmi_cbn);
    rewrite ?Hlog, ?map_app, ?filter_app, ?Hcalls,
      ?poll_calls_control, ?poll_calls_establish; cbn; eauto.
Qed.

(** X3.  With usable credentials and address, a connection error of the BMC
    before the command is out becomes the error outcome "Failed to connect:"
    followed by the text of the error.  If the session fails, nothing else is
    issued; if the command fails, no wait follows and the power state is not
    queried again. *)
Theorem ipmi_connection_error (b : Bm.Bmc) (p : Bm.NodeActionParams) (t0 : Z)
    (usr pwd : string) (hp : string * Z) (msg : string) :
  Bm.user p = Some usr -> Bm.password p = Some pwd ->
  Bm.parse_bmc_addr (Bm.addr p) = inr hp ->
  (Bm.establish_reply b = Some (IpmiConnectionError msg) ->
   Bm.run b p t0
   = (Ok (Bm.error_result ("Failed to connect: " ++ msg)),
      mkWorld (t0 + Bm.cost b (mkWorld t0 []))
              [(t0, Bm.Establish (fst hp) (snd hp) usr pwd)])) /\
  (Bm.establish_reply b = None ->
   (forall n, Bm.dict_get Bm.nodeActionEnumToInt (Bm.value (Bm.action p)) = Some n ->
              Bm.control_reply b n = Some (IpmiConnectionError msg)) ->
   (Bm.is_restart (Bm.action p) = true -> exists on, Bm.status_reply b 0 = inr on) ->
   fst (Bm.run b p t0) = Ok (Bm.error_result ("Failed to connect: " ++ msg)) /\
   calls_where Bm.is_sleep (log (snd (Bm.run b p t0))) = [] /\
   (count_calls Bm.is_status (log (snd (Bm.run b p t0))) <= 1)%nat).
Proof.
  intros Hu Hp Hparse. destruct hp as [host port].
  ipmi_open p. cbn in Hu, Hp, Hparse. subst u pw. rewrite Hparse.
  split.
  - intros He. rewrite He. reflexivity.
  - intros He Hc Hr. rewrite He. unfold calls_where.
    destruct a; ipmi_cbn; cbn in Hr;
      try (destruct (Hr eq_refl) as [on Hon]; rewrite Hon; ipmi_cbn);
      rewrite (Hc _ eq_refl); ipmi_cbn; repeat split; lia.
Qed.

(** The functional test of the plugin: no server answers at the address. *)
Lemma ipmi_connection_error_witness :
  Bm.run (Bm.mkBmc (Some (IpmiConnectionError "no route to host"))
                   (fun _ => inr false) (fun _ => None) (fun _ => 0%N))
         (Bm.mkParams Bm.START "127.0.0.1:12345" (Some "user") (Some "password")
                      true 30) 0
  = (Ok (Bm.error_result "Failed to connect: no route to host"),
     mkWorld 0 [(0, Bm.Establish "127.0.0.1" 12345 "user" "password")]).
Proof.
  apply (proj1 (ipmi_connection_error
                  (Bm.mkBmc (Some (IpmiConnectionError "no route to host"))
                            (fun _ => inr false) (fun _ => None) (fun _ => 0%N))
                  (Bm.mkParams Bm.START "127.0.0.1:12345" (Some "user")
                               (Some "password") true 30)
                  0 "user" "password" ("127.0.0.1", 12345) "no route to host"
                  eq_refl eq_refl eq_refl)).
  reflexivity.
Defined.

(** X4.  When [ipmi_action] waits and returns the success outcome, the state
    it reports is the intended final state of the action as line 161 computes
    it. *)
Theorem ipmi_wait_success_state (b : Bm.Bmc) (p : Bm.NodeActionParams)
    (t0 ms : Z) (on : bool) :
  Bm.wait p = true ->
  fst (Bm.run b p t0) = Ok (Bm.success_result ms on) ->
  on = Bm.intended_final_power_state (Bm.action p).
Proof.
  destruct p as [a addr u pw wt timeout]. cbn [Bm.wait Bm.action]. intros ->.
  run_ipmi. cbn [Bm.action Bm.addr Bm.user Bm.password Bm.wait Bm.wait_timeout].
  destruct (Bm.parse_bmc_addr addr) as [[]|[host port]]; try discriminate.
  destruct u as [u|], pw as [pw|]; try discriminate.
  destruct a; ipmi_cbn; repeat (case_reply; ipmi_cbn); try discriminate.
  all: case_wait; ipmi_cbn; try discriminate.
  all: repeat (case_reply; ipmi_cbn); try discriminate.
  all: intros H; injection H as _ <-; reflexivity.
Qed.

Lemma ipmi_wait_success_state_witness :
  false = Bm.intended_final_power_state Bm.STOP.
Proof.
  apply (ipmi_wait_success_state (Bm.on_until 1) (Bm.ask Bm.STOP true 1) 0 500 false);
    vm_compute; reflexivity.
Defined.

(** X6.  A run of [ipmi_action] queries the power state at most
    [3 + 2 * wait_timeout] times and sleeps at most [2 * wait_timeout] times,
    half a second each time; without [wait] it never sleeps and queries at
    most twice. *)
Theorem ipmi_poll_bound (b : Bm.Bmc) (p : Bm.NodeActionParams) (t0 : Z) :
  (count_calls Bm.is_status (log (snd (Bm.run b p t0)))
   <= 3 + Z.to_nat (2 * Bm.wait_timeout p))%nat /\
  (exists k, (k <= Z.to_nat (2 * Bm.wait_timeout p))%nat /\
     calls_where Bm.is_sleep (log (snd (Bm.run b p t0)))
     = repeat (Bm.Sleep 500) k) /\
  (Bm.wait p = false ->
   (count_calls Bm.is_status (log (snd (Bm.run b p t0))) <= 2)%nat /\
   calls_where Bm.is_sleep (log (snd (Bm.run b p t0))) = []).
Proof.
  rewrite !count_calls_where.
  ipmi_open p. unfold calls_where.
  destruct (Bm.parse_bmc_addr addr) as [[]|[host port]]; ipmi_cbn;
    try (split; [lia | split; [exists 0%nat; split; [lia|reflexivity]
                              | intros; split; [lia|reflexivity]]]).
  destruct u as [u|], pw as [pw|]; ipmi_cbn;
    try (split; [lia | split; [exists 0%nat; split; [lia|reflexivity]
                              | intros; split; [lia|reflexivity]]]).
  destruct wt, a; ipmi_cbn; repeat (case_reply; ipmi_cbn);
    try (split; [lia | split; [exists 0%nat; split; [lia|reflexivity]
                              | intros; split; [lia|reflexivity]]]).
  all: case_wait_run; destruct r as [[]| |]; ipmi_cbn;
    repeat (case_reply; ipmi_cbn);
    rewrite ?Hlog, ?map_app, ?filter_app, ?length_app, ?Hcalls,
      ?poll_calls_sleep, ?poll_calls_status;
    cbn [log map snd filter Bm.is_status Bm.is_sleep app];
    rewrite ?app_nil_r; cbn [app List.length Nat.add];
    (split; [lia | split; [exists n; split; [lia|reflexivity]
                          | intros; discriminate]]).
Qed.

Lemma ipmi_poll_bound_witness :
  (count_calls Bm.is_status
     (log (snd (Bm.run (Bm.stays_on 0) (Bm.ask Bm.STOP false 30) 0))) <= 2)%nat /\
  calls_where Bm.is_sleep
    (log (snd (Bm.run (Bm.stays_on 0) (Bm.ask Bm.STOP false 30) 0))) = [].
Proof.
  exact (proj2 (proj2 (ipmi_poll_bound (Bm.stays_on 0) (Bm.ask Bm.STOP false 30) 0))
               eq_refl).
Defined.

(** A loop whose [k]-th query is the first to see the desired state, with
    calls that take at most [L] ms and [k] rounds that fit in the timeout,
    returns at that query. *)
Lemma poll_reaches (b : Bm.Bmc) (c : Bm.connection) (d : bool) (deadline L : Z) :
  (forall n, Z.of_N (Bm.call_ms b n) <= L) ->
  forall (k fuel : nat) (w : World Bm.call),
    (k <= fuel)%nat ->
    ((0 < k)%nat -> Z.of_nat k * (500 + 2 * L) <= deadline - now w) ->
    (forall i, (i < k)%nat ->
       Bm.status_reply b (count_calls Bm.is_status (log w) + i) = inr (negb d)) ->
    Bm.status_reply b (count_calls Bm.is_status (log w) + k) = inr d ->
    exists added,
      fst (Bm.poll (S fuel) b c d deadline w) = Ok tt /\
      log (snd (Bm.poll (S fuel) b c d deadline w)) = (log w ++ added)%list /\
      map snd added = Bm.poll_calls k /\
      now w <= now (snd (Bm.poll (S fuel) b c d deadline w))
            <= now w + Z.of_nat k * (500 + 2 * L) + L.
Proof.
  intros HL. induction k as [|k IH]; intros fuel w Hfuel Htime Hmis Hhit;
    pose proof (bm_cost_le b L w HL) as Hc; rewrite poll_step; cbv zeta.
  - rewrite Nat.add_0_r in Hhit. rewrite Hhit, Bool.eqb_reflx. cbn.
    exists [(now w, Bm.GetChassisStatus)]. repeat split; lia.
  - pose proof (Hmis 0%nat ltac:(lia)) as H0. rewrite Nat.add_0_r in H0.
    rewrite H0.
    assert (Hne : negb (Bool.eqb (negb d) d) = true) by now destruct d.
    rewrite Hne. cbn [now log andb].
    specialize (Htime ltac:(lia)).
    rewrite Nat2Z.inj_succ, Z.mul_succ_l in Htime.
    assert (Hpos : 0 <= Z.of_nat k * (500 + 2 * L))
      by (apply Z.mul_nonneg_nonneg; lia).
    assert (Hlt : (now w + Bm.cost b w <? deadline) = true)
      by (apply Z.ltb_lt; lia).
    rewrite Hlt.
    destruct fuel as [|fuel]; [lia|].
    set (w1 := mkWorld (now w + Bm.cost b w)
                       (log w ++ [(now w, Bm.GetChassisStatus)])).
    set (w2 := mkWorld _ _).
    pose proof (bm_cost_le b L w1 HL) as Hc1.
    assert (Hk : count_calls Bm.is_status (log w2)
                 = S (count_calls Bm.is_status (log w))).
    { subst w2; cbn [log]. rewrite !count_calls_app. cbn. lia. }
    destruct (IH fuel w2) as (added & Hr & Hlog & Hcalls & Hnow).
    + lia.
    + intros _. subst w2; cbn [now]. lia.
    + intros i Hi. rewrite Hk. cbn [Nat.add]. rewrite <- Nat.add_succ_r.
      apply Hmis. lia.
    + rewrite Hk. cbn [Nat.add]. rewrite <- Nat.add_succ_r. exact Hhit.
    + exists ((now w, Bm.GetChassisStatus)
                :: (now w + Bm.cost b w, Bm.Sleep 500) :: added).
      split; [exact Hr|]. split; [|split].
      * rewrite Hlog. subst w2; cbn [log]. now rewrite <- !app_assoc.
      * cbn. now rewrite Hcalls.
      * subst w2; cbn [now] in Hnow.
        rewrite Nat2Z.inj_succ, Z.mul_succ_l. lia.
Qed.

Lemma wait_reaches (b : Bm.Bmc) (c : Bm.connection) (d : bool)
    (timeout L : Z) (k : nat) (w : World Bm.call) :
  (forall n, Z.of_N (Bm.call_ms b n) <= L) ->
  ((0 < k)%nat -> Z.of_nat k * (500 + 2 * L) <= 1000 * timeout) ->
  (forall i, (i < k)%nat ->
     Bm.status_reply b (count_calls Bm.is_status (log w) + i) = inr (negb d)) ->
  Bm.status_reply b (count_calls Bm.is_status (log w) + k) = inr d ->
  exists added,
    fst (Bm.wait_for_power_state b c d timeout w) = Ok tt /\
    log (snd (Bm.wait_for_power_state b c d timeout w)) = (log w ++ added)%list /\
    map snd added = Bm.poll_calls k /\
    now w <= now (snd (Bm.wait_for_power_state b c d timeout w))
          <= now w + Z.of_nat k * (500 + 2 * L) + L.
Proof.
  intros HL Htime Hmis Hhit.
  change (Bm.wait_for_power_state b c d timeout w)
    with (Bm.poll (S (Z.to_nat (2 * timeout))) b c d (now w + 1000 * timeout) w).
  apply poll_reaches; auto.
  - destruct k as [|k]; [lia|]. specialize (Htime ltac:(lia)).
    pose proof (HL 0%nat) as H0.
    rewrite Z.mul_add_distr_l in Htime.
    assert (0 <= Z.of_nat (S k) * (2 * L)) by (apply Z.mul_nonneg_nonneg; lia).
    lia.
  - intros Hk. specialize (Htime Hk). lia.
Qed.

(** X7.  The success path of a waiting request.  Let the credentials and the
    address be usable, the session and the command be accepted, every call
    take at most [L] ms, and, for a reboot, the chassis be off before the
    command.  If the [k]-th query of the wait is the first to see the intended
    state, [k] rounds of polling fit in [wait_timeout], and the state is still
    there at the next query, then [ipmi_action] returns the success outcome
    with the intended state, after exactly [k] sleeps and at most
    [k * (500 + 2 L) + 5 L] ms. *)
Theorem ipmi_wait_success (b : Bm.Bmc) (p : Bm.NodeActionParams) (t0 : Z)
    (usr pwd : string) (hp : string * Z) (L : Z) (k : nat) :
  Bm.wait p = true ->
  Bm.user p = Some usr -> Bm.password p = Some pwd ->
  Bm.parse_bmc_addr (Bm.addr p) = inr hp ->
  Bm.establish_reply b = None ->
  (forall n, Bm.dict_get Bm.nodeActionEnumToInt (Bm.value (Bm.action p)) = Some n ->
             Bm.control_reply b n = None) ->
  (forall n, Z.of_N (Bm.call_ms b n) <= L) ->
  (Bm.is_restart (Bm.action p) = true -> Bm.status_reply b 0 = inr false) ->
  ((0 < k)%nat -> Z.of_nat k * (500 + 2 * L) <= 1000 * Bm.wait_timeout p) ->
  (forall i, (i < k)%nat ->
     Bm.status_reply b (Bm.final_query_index (Bm.action p) + i)
     = inr (negb (Bm.intended_final_power_state (Bm.action p)))) ->
  Bm.status_reply b (Bm.final_query_index (Bm.action p) + k)
  = inr (Bm.intended_final_power_state (Bm.action p)) ->
  Bm.status_reply b (Bm.final_query_index (Bm.action p) + S k)
  = inr (Bm.intended_final_power_state (Bm.action p)) ->
  exists ms,
    fst (Bm.run b p t0)
    = Ok (Bm.success_result ms (Bm.intended_final_power_state (Bm.action p))) /\
    0 <= ms <= Z.of_nat k * (500 + 2 * L) + 5 * L /\
    calls_where Bm.is_sleep (log (snd (Bm.run b p t0))) = repeat (Bm.Sleep 500) k.
Proof.
  intros Hw Hu Hp Hparse He Hc HL Hr Htime Hmis Hhit Hfinal.
  destruct hp as [host port].
  destruct p as [a addr u pw wt timeout].
  cbn [Bm.action Bm.addr Bm.user Bm.password Bm.wait Bm.wait_timeout] in *.
  subst wt u pw. run_ipmi.
  cbn [Bm.action Bm.addr Bm.user Bm.password Bm.wait Bm.wait_timeout].
  rewrite Hparse, He. unfold calls_where.
  pose proof (HL 0%nat) as HL0.
  destruct a; cbn in Hr, Hmis, Hhit, Hfinal; ipmi_cbn;
    try (rewrite (Hr eq_refl); ipmi_cbn); rewrite (Hc _ eq_refl); ipmi_cbn.
  all: match goal with
       | |- context [Bm.wait_for_power_state ?b ?c ?d ?t ?st] =>
           destruct (wait_reaches b c d t L k st HL Htime)
             as (added & Hres & Hlog & Hcalls & Hnow);
           [ exact Hmis | exact Hhit | ];
           destruct (Bm.wait_for_power_state b c d t st) as [r w1];
           cbn [fst snd] in Hres, Hlog, Hnow; subst r; ipmi_cbn
       end.
  all: pose proof (poll_calls_status_count _ _ Hcalls) as Hcnt;
    unfold count_calls in Hcnt; rewrite Hlog, !filter_snd_app, Hcnt;
    cbn [log filter snd Bm.is_status List.length Nat.add];
    rewrite Hfinal; ipmi_cbn; eexists; (split; [reflexivity|]).
  all: split;
    [ cbn [now] in Hnow; bound_costs HL L; lia
    | rewrite !map_app, !filter_app, Hcalls, poll_calls_sleep; cbn;
      now rewrite app_nil_r ].
Qed.

Lemma ipmi_wait_success_witness :
  exists ms,
    fst (Bm.run (Bm.on_until 2) (Bm.ask Bm.STOP true 30) 0)
    = Ok (Bm.success_result ms false) /\
    0 <= ms <= Z.of_nat 2 * (500 + 2 * 0) + 5 * 0 /\
    calls_where Bm.is_sleep (log (snd (Bm.run (Bm.on_until 2) (Bm.ask Bm.STOP true 30) 0)))
    = repeat (Bm.Sleep 500) 2.
Proof.
  apply (ipmi_wait_success (Bm.on_until 2) (Bm.ask Bm.STOP true 30) 0
           "user" "password" ("127.0.0.1", 623) 0 2);
    try reflexivity.
  - intros H. discriminate H.
  - intros _. cbn. lia.
  - intros i Hi. destruct i as [|[|i]]; [reflexivity | reflexivity | lia].
Defined.

(** ** The AWS plugin *)

(** X8.  In every run of [aws_action] at most one command is sent to EC2, and
    it is the command of the requested action for the requested instance.
    It is sent whenever the session is created and the reboot check lets the
    request through. *)
Theorem aws_single_command (b : Aws.Ec2) (p : Aws.NodeActionParams) (t0 : Z) :
  (calls_where Aws.is_command (log (snd (Aws.run b p t0))) = [] \/
   calls_where Aws.is_command (log (snd (Aws.run b p t0)))
   = [Aws.command_for (Aws.action p) (Aws.instance_id p)]) /\
  (Aws.session_reply b = None -> Aws.passes_check b (Aws.action p) ->
   calls_where Aws.is_command (log (snd (Aws.run b p t0)))
   = [Aws.command_for (Aws.action p) (Aws.instance_id p)]).
Proof.
  split.
  - aws_open p.
    destruct wt, a; cbn; repeat (case_aws_reply; cbn); auto;
      destruct (_ =? "running")%string; cbn; auto.
  - intros Hs Hp. aws_open p. cbn [Aws.action] in Hp. rewrite Hs.
    destruct wt, a; aws_passes Hp; cbn; aws_checked;
      repeat (case_aws_reply; cbn); auto;
      destruct (_ =? "running")%string; cbn; auto.
Qed.

Lemma aws_single_command_witness :
  calls_where Aws.is_command
    (log (snd (Aws.run (Aws.in_state "stopping") (Aws.ask Aws.REBOOT false 30) 0)))
  = [Aws.RebootInstances "i-0123"].
Proof.
  apply (proj2 (aws_single_command (Aws.in_state "stopping")
                  (Aws.ask Aws.REBOOT false 30) 0)).
  - reflexivity.
  - intros _. exists "stopping". repeat split; discriminate.
Defined.

(** X9.  Without [wait] no waiter is called.  With [wait], once the command
    is accepted, exactly one waiter is called: [wait_until_terminated] for a
    terminate, and otherwise [wait_until_running] or [wait_until_stopped],
    according to the intended final state, with [wait_timeout] as its
    argument. *)
Theorem aws_waiter_called (b : Aws.Ec2) (p : Aws.NodeActionParams) (t0 : Z) :
  (Aws.wait p = false ->
   calls_where Aws.is_wait (log (snd (Aws.run b p t0))) = []) /\
  (Aws.wait p = true -> Aws.session_reply b = None ->
   Aws.passes_check b (Aws.action p) -> Aws.command_reply b = None ->
   calls_where Aws.is_wait (log (snd (Aws.run b p t0)))
   = [ if Aws.is_action (Aws.action p) Aws.TERMINATE then Aws.WaitUntilTerminated
       else if Aws.intended_final_power_state (Aws.action p)
            then Aws.WaitUntilRunning (Aws.wait_timeout p)
            else Aws.WaitUntilStopped (Aws.wait_timeout p) ]).
Proof.
  split.
  - aws_open p. cbn. intros ->.
    destruct a; cbn; repeat (case_aws_reply; cbn); auto.
  - aws_open p. cbn. intros -> Hs Hp Hc. rewrite Hs, Hc.
    destruct a; aws_passes Hp; cbn; aws_checked;
      repeat (case_aws_reply; cbn); auto;
      destruct (_ =? "running")%string; cbn; auto.
Qed.

Lemma aws_waiter_called_witness :
  calls_where Aws.is_wait
    (log (snd (Aws.run (Aws.in_state "stopped") (Aws.ask Aws.FORCE_STOP true 45) 0)))
  = [Aws.WaitUntilStopped 45].
Proof.
  apply (proj2 (aws_waiter_called (Aws.in_state "stopped")
                  (Aws.ask Aws.FORCE_STOP true 45) 0));
    try reflexivity.
  intros H. discriminate H.
Defined.

(** X10.  When the waiter fails with [WaiterError], [aws_action] returns the
    error outcome "Failed due to timeout while waiting for final state."; any
    other exception of the waiter reaches the caller.  In both cases the
    waiter is the last call of the run: the state is not loaded again. *)
Theorem aws_waiter_error (b : Aws.Ec2) (p : Aws.NodeActionParams) (t0 : Z)
    (e : exn) :
  Aws.wait p = true -> Aws.session_reply b = None ->
  Aws.passes_check b (Aws.action p) -> Aws.command_reply b = None ->
  Aws.wait_reply b = Some e ->
  fst (Aws.run b p t0)
  = match e with
    | WaiterError _ =>
        Ok (Aws.error_result "Failed due to timeout while waiting for final state.")
    | _ => Raise e
    end /\
  exists l t c, Aws.is_wait c = true /\
                log (snd (Aws.run b p t0)) = (l ++ [(t, c)])%list.
Proof.
  aws_open p. cbn. intros -> Hs Hp Hc Hw. rewrite Hs, Hc, Hw.
  destruct a; aws_passes Hp; cbn; aws_checked;
    (split; [destruct e; reflexivity|]);
    destruct e; cbn; eexists _, _, _;
    (split; cycle 1;
     [ first [ apply (@eq_refl _ ([_; _] ++ [_])%list)
             | apply (@eq_refl _ ([_; _; _] ++ [_])%list) ]
     | reflexivity ]).
Qed.

Lemma aws_waiter_error_witness :
  fst (Aws.run (Aws.mkEc2 None (fun _ => inr "pending") None
                          (Some (WaiterError "Max attempts exceeded"))
                          (fun _ => 0%N))
               (Aws.ask Aws.START true 30) 0)
  = Ok (Aws.error_result "Failed due to timeout while waiting for final state.").
Proof.
  apply (proj1 (aws_waiter_error
                  (Aws.mkEc2 None (fun _ => inr "pending") None
                             (Some (WaiterError "Max attempts exceeded"))
                             (fun _ => 0%N))
                  (Aws.ask Aws.START true 30) 0
                  (WaiterError "Max attempts exceeded")
                  eq_refl eq_refl (fun H => False_ind _ (Bool.diff_false_true H))
                  eq_refl eq_refl)).
Defined.

(** X11.  When [aws_action] waits and the waiter returns, the outcome is
    decided by the state loaded afterwards: success, reporting whether the
    instance is "running", if that agrees with the intended final state, and
    otherwise the error outcome whose message ends with the name of the state.
    The state is loaded once after the waiter; the message reuses it. *)
Theorem aws_wait_outcome (b : Aws.Ec2) (p : Aws.NodeActionParams) (t0 : Z)
    (name : string) :
  Aws.wait p = true -> Aws.session_reply b = None ->
  Aws.passes_check b (Aws.action p) -> Aws.command_reply b = None ->
  Aws.wait_reply b = None ->
  Aws.load_reply b (Aws.final_load_index (Aws.action p)) = inr name ->
  fst (Aws.run b p t0)
  = (if Bool.eqb (name =? "running")%string
                 (Aws.intended_final_power_state (Aws.action p))
     then Ok (Aws.success_result (now (snd (Aws.run b p t0)) - t0)
                                 (name =? "running")%string)
     else Ok (Aws.error_result
                ("Did not reach desired final state within timeout period. Power state is "
                   ++ name))) /\
  count_calls Aws.is_load (log (snd (Aws.run b p t0)))
  = S (Aws.final_load_index (Aws.action p)).
Proof.
  aws_open p. cbn. intros -> Hs Hp Hc Hw Hl. rewrite Hs, Hc, Hw.
  destruct a; aws_passes Hp; cbn in *; aws_checked;
    rewrite Hl; cbn;
    destruct (name =? "running")%string; cbn; split; reflexivity.
Qed.

Lemma aws_wait_outcome_witness :
  fst (Aws.run (Aws.in_state "stopping") (Aws.ask Aws.START true 30) 0)
  = Ok (Aws.error_result
          "Did not reach desired final state within timeout period. Power state is stopping").
Proof.
  apply (proj1 (aws_wait_outcome (Aws.in_state "stopping")
                  (Aws.ask Aws.START true 30) 0 "stopping"
                  eq_refl eq_refl (fun H => False_ind _ (Bool.diff_false_true H))
                  eq_refl eq_refl eq_refl)).
Defined.

(** ** The address of the BMC, continued *)

Lemma prefix_colon_other (tail : string) (c : ascii) (s : string) :
  Ascii.eqb c ":" = false -> String.prefix (String ":" tail) (String c s) = false.
Proof.
  intros H. cbn [String.prefix].
  destruct (ascii_dec ":" c) as [<-|]; [discriminate H | reflexivity].
Qed.

(** In a string that starts with colon-free text, a separator that begins
    with a colon is first found where that text ends. *)
Lemma find_from_after (tail s t : string) (i : Z) :
  PyStr.lacks ":" s = true ->
  String.prefix (String ":" tail) t = true ->
  PyStr.find_from i (String ":" tail) (s ++ t) = i + Z.of_nat (String.length s).
Proof.
  revert i. induction s as [|c s IH]; intros i Hl Hp.
  - cbn [append String.length]. destruct t as [|c t]; cbn [PyStr.find_from];
      rewrite Hp; cbn; lia.
  - cbn in Hl. apply andb_prop in Hl as [Hc Hl]. apply negb_true_iff in Hc.
    cbn [append PyStr.find_from]. rewrite (prefix_colon_other _ _ _ Hc).
    rewrite IH by assumption. cbn [String.length]. lia.
Qed.

Lemma find_from_none (tail s : string) (i : Z) :
  PyStr.lacks ":" s = true ->
  PyStr.find_from i (String ":" tail) s = -1.
Proof.
  revert i. induction s as [|c s IH]; intros i Hl.
  - reflexivity.
  - cbn in Hl. apply andb_prop in Hl as [Hc Hl]. apply negb_true_iff in Hc.
    cbn [PyStr.find_from]. rewrite (prefix_colon_other _ _ _ Hc). now apply IH.
Qed.

Lemma find_from_skip (tail s t : string) (i : Z) :
  PyStr.lacks ":" s = true ->
  PyStr.find_from i (String ":" tail) (s ++ t)
  = PyStr.find_from (i + Z.of_nat (String.length s)) (String ":" tail) t.
Proof.
  revert i. induction s as [|c s IH]; intros i Hl.
  - cbn. f_equal. lia.
  - cbn in Hl. apply andb_prop in Hl as [Hc Hl]. apply negb_true_iff in Hc.
    cbn [append PyStr.find_from]. rewrite (prefix_colon_other _ _ _ Hc).
    rewrite IH by assumption. f_equal. cbn [String.length]. lia.
Qed.

Lemma drop_app (s t : string) : PyStr.drop (String.length s) (s ++ t) = t.
Proof. induction s; cbn; auto. Qed.

Lemma take_app (s t : string) : PyStr.take (String.length s) (s ++ t) = s.
Proof. induction s; cbn; [now destruct t | now f_equal]. Qed.

Lemma slice_from_app (s t : string) (n : Z) :
  0 <= n ->
  PyStr.slice_from (Z.of_nat (String.length s) + n) (s ++ t)
  = PyStr.drop (Z.to_nat n) t.
Proof.
  intros Hn. unfold PyStr.slice_from.
  replace (Z.to_nat (Z.of_nat (String.length s) + n))
    with (String.length s + Z.to_nat n)%nat by lia.
  induction s; cbn; auto.
Qed.

Lemma slice_to_app (s t : string) :
  PyStr.slice_to (Z.of_nat (String.length s)) (s ++ t) = s.
Proof. unfold PyStr.slice_to. rewrite Nat2Z.id. apply take_app. Qed.

(** The characters [int] accepts. *)
Lemma digits_lacks (c : ascii) :
  PyStr.digit_of c = None -> Ascii.eqb c "_" = false ->
  forall (s : string) (st : PyStr.lex_state) (acc v : Z),
    PyStr.digits st acc s = Some v -> PyStr.lacks c s = true.
Proof.
  intros Hd Hu. induction s as [|a s IH]; intros st acc v H; [reflexivity|].
  cbn in H |- *.
  assert (Hne : Ascii.eqb a c = false).
  { destruct (Ascii.eqb_spec a c) as [->|]; [|reflexivity].
    rewrite Hd, Hu in H. discriminate. }
  rewrite Hne. cbn.
  destruct (PyStr.digit_of a); [now apply IH in H|].
  destruct (Ascii.eqb a "_"); [|discriminate].
  destruct st; try discriminate. now apply IH in H.
Qed.

Lemma rstrip_lacks (c : ascii) :
  PyStr.is_space c = false ->
  forall s, PyStr.lacks c (PyStr.rstrip s) = true -> PyStr.lacks c s = true.
Proof.
  intros Hs. induction s as [|a s IH]; intros H; [reflexivity|].
  cbn in H |- *.
  destruct (PyStr.rstrip s) as [|r0 r] eqn:Hr.
  - rewrite (IH eq_refl), andb_true_r.
    destruct (Ascii.eqb_spec a c) as [->|]; [|reflexivity].
    rewrite Hs in H. cbn in H. rewrite Ascii.eqb_refl in H. discriminate.
  - cbn in H. apply andb_prop in H as [Ha H]. rewrite Ha. cbn. now apply IH.
Qed.

Lemma lstrip_lacks (c : ascii) :
  PyStr.is_space c = false ->
  forall s, PyStr.lacks c (PyStr.lstrip s) = true -> PyStr.lacks c s = true.
Proof.
  intros Hs. induction s as [|a s IH]; intros H; [reflexivity|].
  cbn in H |- *. destruct (PyStr.is_space a) eqn:Ha.
  - rewrite (IH H), andb_true_r.
    destruct (Ascii.eqb_spec a c) as [->|]; [congruence | reflexivity].
  - exact H.
Qed.

Lemma int_lacks (c : ascii) (s : string) (v : Z) :
  PyStr.is_space c = false -> PyStr.digit_of c = None ->
  Ascii.eqb c "_" = false -> Ascii.eqb c "+" = false -> Ascii.eqb c "-" = false ->
  PyStr.int s = Some v -> PyStr.lacks c s = true.
Proof.
  intros Hs Hd Hu Hp Hm H.
  apply lstrip_lacks, rstrip_lacks; try assumption.
  unfold PyStr.int in H.
  destruct (PyStr.rstrip (PyStr.lstrip s)) as [|a r]; [discriminate|].
  destruct (Ascii.eqb_spec a "-") as [->|].
  - cbn [PyStr.lacks]. rewrite Ascii.eqb_sym, Hm. cbn [negb andb].
    destruct (PyStr.digits PyStr.AtStart 0 r) eqn:Hdg; [|discriminate].
    exact (digits_lacks c Hd Hu _ _ _ _ Hdg).
  - destruct (Ascii.eqb_spec a "+") as [->|].
    + cbn [PyStr.lacks]. rewrite Ascii.eqb_sym, Hp. cbn [negb andb].
      exact (digits_lacks c Hd Hu _ _ _ _ H).
    + exact (digits_lacks c Hd Hu _ _ _ _ H).
Qed.

Lemma int_lacks_colon (s : string) (v : Z) :
  PyStr.int s = Some v -> PyStr.lacks ":" s = true.
Proof. now apply int_lacks. Qed.

Lemma int_no_slash (s : string) (v : Z) :
  PyStr.int s = Some v -> String.prefix "//" s = false.
Proof.
  intros H. pose proof (int_lacks "/" s v eq_refl eq_refl eq_refl eq_refl eq_refl H) as Hl.
  destruct s as [|c s]; [reflexivity|]. cbn [String.prefix].
  destruct (ascii_dec "/" c) as [<-|]; [discriminate Hl | reflexivity].
Qed.

(** X13.  A well-formed address is read back as written.  For a host and a
    scheme without colon and a port text that [int] reads as [port]:
    "host:port" and "scheme://host:port" give the host and [port], and "host"
    and "scheme://host" give the host and the default port 623. *)
Theorem parse_bmc_addr_well_formed (scheme host literal : string) (port : Z) :
  PyStr.lacks ":" scheme = true -> PyStr.lacks ":" host = true ->
  PyStr.int literal = Some port ->
  Bm.parse_bmc_addr (host ++ ":" ++ literal) = inr (host, port) /\
  Bm.parse_bmc_addr (scheme ++ "://" ++ host ++ ":" ++ literal) = inr (host, port) /\
  Bm.parse_bmc_addr host = inr (host, 623) /\
  Bm.parse_bmc_addr (scheme ++ "://" ++ host) = inr (host, 623).
Proof.
  intros Hs Hh Hi.
  pose proof (int_lacks_colon _ _ Hi) as Hl.
  pose proof (int_no_slash _ _ Hi) as Hsl.
  assert (Hport : forall rest, rest = host ++ ":" ++ literal ->
            PyStr.find rest ":" = Z.of_nat (String.length host)).
  { intros rest ->. unfold PyStr.find.
    rewrite (find_from_after "" host (":" ++ literal) 0 Hh (prefix_app ":" literal)).
    lia. }
  assert (Hnoport : PyStr.find host ":" = -1)
    by (unfold PyStr.find; now apply find_from_none).
  assert (Hscheme : forall rest,
            PyStr.find (scheme ++ "://" ++ rest) "://"
            = Z.of_nat (String.length scheme)).
  { intros rest. unfold PyStr.find.
    rewrite (find_from_after "//" scheme ("://" ++ rest) 0 Hs (prefix_app "://" rest)).
    lia. }
  assert (Hnoscheme1 : PyStr.find (host ++ ":" ++ literal) "://" = -1).
  { unfold PyStr.find. rewrite find_from_skip by assumption.
    cbn [append PyStr.find_from].
    change (String.prefix "://" (String ":" literal)) with (String.prefix "//" literal).
    rewrite Hsl. now apply find_from_none. }
  assert (Hnoscheme2 : PyStr.find host "://" = -1)
    by (unfold PyStr.find; now apply find_from_none).
  assert (Hparse : forall addr rest,
            rest = (if PyStr.find addr "://" =? -1 then addr
                    else PyStr.slice_from (PyStr.find addr "://" + 3) addr) ->
            rest = host ++ ":" ++ literal ->
            Bm.parse_bmc_addr addr = inr (host, port)).
  { intros addr rest Hrest Heq. unfold Bm.parse_bmc_addr. rewrite <- Hrest.
    rewrite (Hport rest Heq).
    destruct (Z.eqb_spec (Z.of_nat (String.length host)) (-1)); [lia|].
    subst rest. rewrite Heq.
    rewrite (slice_from_app host (":" ++ literal) 1) by lia.
    rewrite slice_to_app.
    change (PyStr.drop (Z.to_nat 1) (":" ++ literal)) with literal.
    now rewrite Hi. }
  assert (Hparse0 : forall addr rest,
            rest = (if PyStr.find addr "://" =? -1 then addr
                    else PyStr.slice_from (PyStr.find addr "://" + 3) addr) ->
            rest = host ->
            Bm.parse_bmc_addr addr = inr (host, 623)).
  { intros addr rest Hrest Heq. unfold Bm.parse_bmc_addr. rewrite <- Hrest.
    subst rest. rewrite Heq, Hnoport. reflexivity. }
  repeat split.
  - eapply Hparse; [reflexivity|]. now rewrite Hnoscheme1.
  - eapply Hparse; [reflexivity|]. rewrite Hscheme.
    destruct (Z.eqb_spec (Z.of_nat (String.length scheme)) (-1)); [lia|].
    now rewrite (slice_from_app scheme _ 3) by lia.
  - eapply Hparse0; [reflexivity|]. now rewrite Hnoscheme2.
  - eapply Hparse0; [reflexivity|]. rewrite Hscheme.
    destruct (Z.eqb_spec (Z.of_nat (String.length scheme)) (-1)); [lia|].
    now rewrite (slice_from_app scheme _ 3) by lia.
Qed.

Lemma parse_bmc_addr_well_formed_witness :
  Bm.parse_bmc_addr ("bmc-7.lab" ++ ":" ++ " 6_230") = inr ("bmc-7.lab", 6230) /\
  Bm.parse_bmc_addr ("ipmi" ++ "://" ++ "bmc-7.lab" ++ ":" ++ " 6_230")
  = inr ("bmc-7.lab", 6230) /\
  Bm.parse_bmc_addr "bmc-7.lab" = inr ("bmc-7.lab", 623) /\
  Bm.parse_bmc_addr ("ipmi" ++ "://" ++ "bmc-7.lab") = inr ("bmc-7.lab", 623).
Proof.
  apply (parse_bmc_addr_well_formed "ipmi" "bmc-7.lab" " 6_230" 6230);
    reflexivity.
Defined.


